(** * AtVenu to ShipHero nightly settlement sync: a shallow embedding

    The program under study is [8_13_test_streamlit.py]: a GraphQL client
    ([AtVenuDataFetcher]) that walks accounts, tours, shows and settlement
    counts page by page, joins the counts with the merchandise catalogue and
    derives a sold quantity per count, and a small table export in [main].

    Python values that come out of [response.json()] are modelled by the
    type [json]; a Python operation that can raise returns an [outcome];
    code that talks to the network or to the logger runs in the monad [M]
    over a [world] holding the scripted server responses, the requests that
    were posted and the log. *)

From Stdlib Require Import ZArith List String Ascii Bool Lia.
Import ListNotations.

Open Scope string_scope.
Open Scope Z_scope.
Open Scope list_scope.

(* ================================================================== *)
(** ** Python values *)
(* ================================================================== *)

(** What [json.loads] produces.  A JSON number is kept as an integer: the
    counts of the API are GraphQL [Int]s.  A dict lists its items in
    insertion order. *)
#[local] Set Warnings "-register-all".

Inductive json : Type :=
| JNull
| JBool (b : bool)
| JNum (n : Z)
| JStr (s : string)
| JArr (l : list json)
| JObj (kv : list (string * json)).

(** The two [raise Exception(...)] of [execute_query], with the values their
    messages interpolate. *)
Inductive failure : Type :=
| GraphQLQueryFailed (errors : json)
| QueryFailedStatus (code : Z) (text : string).

Inductive exn : Type :=
| KeyError (k : json)
| IndexError
| TypeError
| AttributeError
| ValueError            (* [response.json()] on a body that is not JSON *)
| ConnectionError       (* [requests.post] did not complete *)
| Unsupported           (* pandas behaviour outside the modelled fragment *)
| Exception (f : failure).

(** Result of running a piece of Python: a value, a raised exception, or a
    [while True] that was cut off. *)
Inductive outcome (A : Type) : Type :=
| Ok (a : A)
| Raise (e : exn)
| Diverge.
Arguments Ok {A} a.
Arguments Raise {A} e.
Arguments Diverge {A}.

Definition obind {A B} (o : outcome A) (k : A -> outcome B) : outcome B :=
  match o with
  | Ok a => k a
  | Raise e => Raise e
  | Diverge => Diverge
  end.

Notation "x <-? e ;; k" := (obind e (fun x => k))
  (at level 100, e at next level, right associativity).

Module Py.

(** [bool(x)] *)
Definition truthy (x : json) : bool :=
  match x with
  | JNull => false
  | JBool b => b
  | JNum n => negb (n =? 0)
  | JStr s => negb (String.eqb s "")
  | JArr l => match l with [] => false | _ => true end
  | JObj kv => match kv with [] => false | _ => true end
  end.

(** [a or b] *)
Definition or_ (a b : json) : json := if truthy a then a else b.

Fixpoint lookup (k : string) (kv : list (string * json)) : option json :=
  match kv with
  | [] => None
  | (k', v) :: rest => if String.eqb k k' then Some v else lookup k rest
  end.

(** [x[k]] for a string key *)
Definition getitem (x : json) (k : string) : outcome json :=
  match x with
  | JObj kv =>
      match lookup k kv with
      | Some v => Ok v
      | None => Raise (KeyError (JStr k))
      end
  | _ => Raise TypeError
  end.

Definition chars (s : string) : list json :=
  map (fun c => JStr (String c EmptyString)) (list_ascii_of_string s).

(** [x[0]] *)
Definition getitem0 (x : json) : outcome json :=
  match x with
  | JArr l => match l with v :: _ => Ok v | [] => Raise IndexError end
  | JStr s => match chars s with c :: _ => Ok c | [] => Raise IndexError end
  | JObj _ => Raise (KeyError (JNum 0))
  | _ => Raise TypeError
  end.

(** [x.get(k, default)] *)
Definition get (x : json) (k : string) (default : json) : outcome json :=
  match x with
  | JObj kv =>
      match lookup k kv with
      | Some v => Ok v
      | None => Ok default
      end
  | _ => Raise AttributeError
  end.

(** The elements a [for] loop (or [list.extend], or a generator) draws
    from [x]. *)
Definition iter (x : json) : outcome (list json) :=
  match x with
  | JArr l => Ok l
  | JObj kv => Ok (map (fun p => JStr (fst p)) kv)
  | JStr s => Ok (chars s)
  | _ => Raise TypeError
  end.

Definition as_int (x : json) : option Z :=
  match x with
  | JNum n => Some n
  | JBool b => Some (if b then 1 else 0)
  | _ => None
  end.

(** [a == b] *)
Fixpoint eq (a b : json) {struct a} : bool :=
  match a, b with
  | JNull, JNull => true
  | JBool x, JBool y => Bool.eqb x y
  | JBool x, JNum n => (if x then 1 else 0) =? n
  | JNum n, JBool y => n =? (if y then 1 else 0)
  | JNum x, JNum y => x =? y
  | JStr x, JStr y => String.eqb x y
  | JArr xs, JArr ys =>
      (fix all2 (l : list json) (r : list json) {struct l} : bool :=
         match l, r with
         | [], [] => true
         | x :: l', y :: r' => eq x y && all2 l' r'
         | _, _ => false
         end) xs ys
  | JObj xs, JObj ys =>
      Nat.eqb (List.length xs) (List.length ys)
      && (fix all (l : list (string * json)) {struct l} : bool :=
            match l with
            | [] => true
            | (k, v) :: l' =>
                match lookup k ys with
                | Some w => eq v w
                | None => false
                end && all l'
            end) xs
  | _, _ => false
  end.

(** [a + b] *)
Definition add (a b : json) : outcome json :=
  match as_int a, as_int b with
  | Some x, Some y => Ok (JNum (x + y))
  | _, _ =>
      match a, b with
      | JStr s, JStr t => Ok (JStr (String.append s t))
      | JArr l, JArr r => Ok (JArr (l ++ r))
      | _, _ => Raise TypeError
      end
  end.

(** [a - b] *)
Definition sub (a b : json) : outcome json :=
  match as_int a, as_int b with
  | Some x, Some y => Ok (JNum (x - y))
  | _, _ => Raise TypeError
  end.

(** [k in x] for a string [k] *)
Definition contains (k : string) (x : json) : outcome bool :=
  match x with
  | JObj kv => Ok (match lookup k kv with Some _ => true | None => false end)
  | JArr l => Ok (existsb (fun y => eq y (JStr k)) l)
  | JStr s => Ok (match String.index 0 k s with Some _ => true | None => false end)
  | _ => Raise TypeError
  end.

(** [x[k] = v] *)
Fixpoint update (k : string) (v : json) (kv : list (string * json))
  : list (string * json) :=
  match kv with
  | [] => [(k, v)]
  | (k', v') :: rest =>
      if String.eqb k k' then (k', v) :: rest else (k', v') :: update k v rest
  end.

Definition setitem (x : json) (k : string) (v : json) : outcome json :=
  match x with
  | JObj kv => Ok (JObj (update k v kv))
  | _ => Raise TypeError
  end.

(** Keys a dict accepts: lists and dicts are unhashable. *)
Definition hashable (x : json) : bool :=
  match x with
  | JArr _ | JObj _ => false
  | _ => true
  end.

End Py.

(* ================================================================== *)
(** ** [AtVenuDataFetcher.calculate_sold] *)
(* ================================================================== *)

(** [sum(g(add) for add in adds)], starting from [0]. *)
Fixpoint sum_quantities (acc : json) (adds : list json) : outcome json :=
  match adds with
  | [] => Ok acc
  | add :: rest =>
      q <-? Py.get add "quantity" (JNum 0) ;;
      acc' <-? Py.add acc (Py.or_ q (JNum 0)) ;;
      sum_quantities acc' rest
  end.

(** The two [logger.debug] lines are below the logger's level ([INFO]) and
    leave no trace. *)
Definition calculate_sold (count : json) : outcome json :=
  ci <-? Py.get count "countIn" (JNum 0) ;;
  let count_in := Py.or_ ci (JNum 0) in
  co <-? Py.get count "countOut" (JNum 0) ;;
  let count_out := Py.or_ co (JNum 0) in
  cp <-? Py.get count "comps" (JNum 0) ;;
  let comps := Py.or_ cp (JNum 0) in
  ma <-? Py.get count "merchAdds" (JArr []) ;;
  adds_l <-? Py.iter ma ;;
  adds <-? sum_quantities (JNum 0) adds_l ;;
  s1 <-? Py.add count_in adds ;;
  s2 <-? Py.sub s1 count_out ;;
  sold <-? Py.sub s2 comps ;;
  Ok sold.

(** Reading of a numeric field as the specification has it: missing or null
    counts as zero. *)
Definition num_or_zero (field : option json) : option Z :=
  match field with
  | None => Some 0
  | Some JNull => Some 0
  | Some (JNum n) => Some n
  | Some _ => None
  end.

Definition add_quantity (add : json) : option Z :=
  match add with
  | JObj kv => num_or_zero (Py.lookup "quantity" kv)
  | _ => None
  end.

Definition adds_of (field : option json) : option (list json) :=
  match field with
  | None => Some []
  | Some (JArr l) => Some l
  | Some _ => None
  end.

Definition zsum (l : list Z) : Z := fold_right Z.add 0 l.

(* ================================================================== *)
(** ** The world: transport and logger *)
(* ================================================================== *)

(** The five GraphQL documents of the fetcher; their text plays no part in
    what the Python code computes. *)
Inductive query_doc : Type :=
| AccountsQuery | ToursQuery | ShowsQuery | MerchandiseQuery | CountsQuery.

(** The arguments of one [requests.post]. *)
Record request : Type := mkRequest {
  req_url : string;
  req_query : query_doc;
  req_variables : json;
  req_headers : list (string * string)
}.

(** What [requests.post] hands back: [payload] is [response.json()], absent
    when the body does not parse. *)
Record response : Type := mkResponse {
  status_code : Z;
  payload : option json;
  text : string
}.

(** A formatted string, kept as its pieces: literal text and interpolated
    values. *)
Inductive piece : Type :=
| Lit (s : string)
| Val (v : json).
Definition fstring : Type := list piece.

Inductive level : Type := INFO | ERROR.

Inductive log_msg : Type :=
| ExecutingQuery (variables : json)
| GraphQLErrors (errors : json)
| StatusFailed (code : Z) (text : string)
| FetchingShowsBetween (start_date end_date : json)
| FetchingTours (artist_name : json)
| FetchingShows (tour_name : json)
| FetchedShows (n : nat)
| FetchingMerchandise (account_uuid : json)
| FetchedMerchandise (n : nat) (account_uuid : json)
| FetchingCounts (show_uuid : json)
| FetchedCounts (n : nat) (show_uuid : json)
| FetchingAllData (start_date end_date : json)
| ProcessingShow (show_uuid show_date : json)
| FetchedTotal (n : nat).

(** The server is a script of responses, one consumed by each POST; every
    POST is recorded in [sent], every log record in [log]. *)
Record world : Type := mkWorld {
  script : list response;
  sent : list request;
  log : list (level * log_msg)
}.

Definition M (A : Type) : Type := world -> outcome A * world.

Definition ret {A} (a : A) : M A := fun w => (Ok a, w).

Definition bind {A B} (m : M A) (k : A -> M B) : M B :=
  fun w =>
    match m w with
    | (Ok a, w') => k a w'
    | (Raise e, w') => (Raise e, w')
    | (Diverge, w') => (Diverge, w')
    end.

Definition lift {A} (o : outcome A) : M A := fun w => (o, w).

Definition raise {A} (e : exn) : M A := lift (Raise e).

Notation "x <- e ;; k" := (bind e (fun x => k))
  (at level 100, e at next level, right associativity).
Notation "e ;;; k" := (bind e (fun _ => k))
  (at level 100, right associativity).

Definition logger (l : level) (m : log_msg) : M unit :=
  fun w => (Ok tt, mkWorld (script w) (sent w) (log w ++ [(l, m)])).

(** [requests.post]: the next scripted response, or a network failure when
    the script has run out. *)
Definition requests_post (r : request) : M response :=
  fun w =>
    match script w with
    | [] => (Raise ConnectionError, mkWorld [] (sent w ++ [r]) (log w))
    | resp :: rest => (Ok resp, mkWorld rest (sent w ++ [r]) (log w))
    end.

(** [while True: ...] whose body either goes round again with a new state
    ([inl]) or leaves with [break] ([inr]). *)
Fixpoint while_true {S A} (fuel : nat) (body : S -> M (S + A)) (s : S) : M A :=
  match fuel with
  | O => lift Diverge
  | Datatypes.S fuel' =>
      r <- body s ;;
      match r with
      | inl s' => while_true fuel' body s'
      | inr a => ret a
      end
  end.

(** Every round of the loops below posts one request, so the responses left
    in the script bound the number of rounds. *)
Definition loop {S A} (body : S -> M (S + A)) (s : S) : M A :=
  fun w => while_true (Datatypes.S (List.length (script w))) body s w.

(** [for x in l: ...] threading the variables the body assigns. *)
Fixpoint for_each {X S} (l : list X) (body : X -> S -> M S) (s : S) : M S :=
  match l with
  | [] => ret s
  | x :: rest => s' <- body x s ;; for_each rest body s'
  end.

(* ================================================================== *)
(** ** [class AtVenuDataFetcher] *)
(* ================================================================== *)

Record fetcher : Type := mkFetcher {
  endpoint : string;
  headers : list (string * string)
}.

Definition init (api_key : string) : fetcher :=
  mkFetcher "https://api.atvenu.com/"
            [("x-api-key", api_key); ("Content-Type", "application/json")].

Definition response_json (r : response) : outcome json :=
  match payload r with
  | Some v => Ok v
  | None => Raise ValueError
  end.

Definition execute_query (self : fetcher) (query : query_doc) (variables : json)
  : M json :=
  logger INFO (ExecutingQuery variables) ;;;
  response <- requests_post (mkRequest (endpoint self) query variables (headers self)) ;;
  if status_code response =? 200 then
    result <- lift (response_json response) ;;
    has_errors <- lift (Py.contains "errors" result) ;;
    if has_errors then
      errors <- lift (Py.getitem result "errors") ;;
      logger ERROR (GraphQLErrors errors) ;;;
      raise (Exception (GraphQLQueryFailed errors))
    else ret result
  else
    logger ERROR (StatusFailed (status_code response) (text response)) ;;;
    raise (Exception (QueryFailedStatus (status_code response) (text response))).

(** [x[k1][k2]...] *)
Fixpoint path (x : json) (ks : list string) : outcome json :=
  match ks with
  | [] => Ok x
  | k :: rest => y <-? Py.getitem x k ;; path y rest
  end.

(** [acc.extend(x)] *)
Definition extend (acc : list json) (x : json) : outcome (list json) :=
  l <-? Py.iter x ;; Ok (acc ++ l).

(** The state of a collector's loop: the list built so far and the cursor. *)
Definition collecting : Type := (list json * json)%type.

Definition fetch_accounts (self : fetcher) : M (list json) :=
  loop (fun st : collecting =>
    let '(accounts, cursor) := st in
    result <- execute_query self AccountsQuery (JObj [("cursor", cursor)]) ;;
    accounts_data <- lift (path result ["data"; "organization"; "accounts"]) ;;
    nodes <- lift (Py.getitem accounts_data "nodes") ;;
    accounts <- lift (extend accounts nodes) ;;
    has_next <- lift (path accounts_data ["pageInfo"; "hasNextPage"]) ;;
    if negb (Py.truthy has_next) then ret (inr accounts)
    else
      cursor <- lift (path accounts_data ["pageInfo"; "endCursor"]) ;;
      ret (inl (accounts, cursor)))
    ([], JNull).

Definition fetch_tours (self : fetcher) (account_uuid : json) : M (list json) :=
  loop (fun st : collecting =>
    let '(tours, cursor) := st in
    result <- execute_query self ToursQuery
                (JObj [("accountUuid", account_uuid); ("cursor", cursor)]) ;;
    tours_data <- lift (path result ["data"; "account"; "tours"]) ;;
    nodes <- lift (Py.getitem tours_data "nodes") ;;
    tours <- lift (extend tours nodes) ;;
    has_next <- lift (path tours_data ["pageInfo"; "hasNextPage"]) ;;
    if negb (Py.truthy has_next) then ret (inr tours)
    else
      cursor <- lift (path tours_data ["pageInfo"; "endCursor"]) ;;
      ret (inl (tours, cursor)))
    ([], JNull).

Definition fetch_shows (self : fetcher) (tour_uuid start_date end_date : json)
  : M (list json) :=
  loop (fun st : collecting =>
    let '(shows, cursor) := st in
    result <- execute_query self ShowsQuery
                (JObj [("tourUuid", tour_uuid); ("startDate", start_date);
                       ("endDate", end_date); ("cursor", cursor)]) ;;
    shows_data <- lift (path result ["data"; "tour"; "shows"]) ;;
    nodes <- lift (Py.getitem shows_data "nodes") ;;
    shows <- lift (extend shows nodes) ;;
    has_next <- lift (path shows_data ["pageInfo"; "hasNextPage"]) ;;
    if negb (Py.truthy has_next) then ret (inr shows)
    else
      cursor <- lift (path shows_data ["pageInfo"; "endCursor"]) ;;
      ret (inl (shows, cursor)))
    ([], JNull).

Definition fetch_shows_in_date_range (self : fetcher) (start_date end_date : json)
  : M (list json) :=
  logger INFO (FetchingShowsBetween start_date end_date) ;;;
  accounts <- fetch_accounts self ;;
  all_shows <-
    for_each accounts (fun account all_shows =>
      artist_name <- lift (Py.getitem account "artistName") ;;
      logger INFO (FetchingTours artist_name) ;;;
      account_uuid <- lift (Py.getitem account "uuid") ;;
      tours <- fetch_tours self account_uuid ;;
      for_each tours (fun tour all_shows =>
        tour_name <- lift (Py.getitem tour "tourName") ;;
        logger INFO (FetchingShows tour_name) ;;;
        tour_uuid <- lift (Py.getitem tour "uuid") ;;
        shows <- fetch_shows self tour_uuid start_date end_date ;;
        for_each shows (fun show all_shows =>
          show <- lift (Py.setitem show "account" account) ;;
          show <- lift (Py.setitem show "tour" tour) ;;
          ret (all_shows ++ [show])) all_shows) all_shows) [] ;;
  logger INFO (FetchedShows (List.length all_shows)) ;;;
  ret all_shows.

Definition fetch_merchandise (self : fetcher) (account_uuid : json)
  : M (list json) :=
  logger INFO (FetchingMerchandise account_uuid) ;;;
  merch_items <-
    loop (fun st : collecting =>
      let '(merch_items, cursor) := st in
      result <- execute_query self MerchandiseQuery
                  (JObj [("uuid", account_uuid); ("cursor", cursor)]) ;;
      nodes <- lift (path result ["data"; "account"; "merchItems"; "nodes"]) ;;
      merch_items <- lift (extend merch_items nodes) ;;
      has_next <- lift (path result ["data"; "account"; "merchItems";
                                     "pageInfo"; "hasNextPage"]) ;;
      if negb (Py.truthy has_next) then ret (inr merch_items)
      else
        cursor <- lift (path result ["data"; "account"; "merchItems";
                                     "pageInfo"; "endCursor"]) ;;
        ret (inl (merch_items, cursor)))
      ([], JNull) ;;
  logger INFO (FetchedMerchandise (List.length merch_items) account_uuid) ;;;
  ret merch_items.

(** [result['data']['show']['settlements'][0]['mainCounts']...] *)
Definition first_settlement_counts (result : json) (ks : list string)
  : outcome json :=
  settlements <-? path result ["data"; "show"; "settlements"] ;;
  first <-? Py.getitem0 settlements ;;
  main_counts <-? Py.getitem first "mainCounts" ;;
  path main_counts ks.

Definition fetch_counts (self : fetcher) (show_uuid : json) : M (list json) :=
  logger INFO (FetchingCounts show_uuid) ;;;
  counts <-
    loop (fun st : collecting =>
      let '(counts, cursor) := st in
      result <- execute_query self CountsQuery
                  (JObj [("uuid", show_uuid); ("cursor", cursor)]) ;;
      nodes <- lift (first_settlement_counts result ["nodes"]) ;;
      counts <- lift (extend counts nodes) ;;
      has_next <- lift (first_settlement_counts result ["pageInfo"; "hasNextPage"]) ;;
      if negb (Py.truthy has_next) then ret (inr counts)
      else
        cursor <- lift (first_settlement_counts result ["pageInfo"; "endCursor"]) ;;
        ret (inl (counts, cursor)))
      ([], JNull) ;;
  logger INFO (FetchedCounts (List.length counts) show_uuid) ;;;
  ret counts.

(* ================================================================== *)
(** ** Join and derivation: [fetch_all_data] *)
(* ================================================================== *)

(** One element of [all_data]: the dict literal of [fetch_all_data], a field
    per key. *)
Record sold_record : Type := mkSold {
  Band : json;
  Tour_Name : json;
  Venue : fstring;
  Product_Name : json;
  Size : json;
  SKU : json;
  In_ : json;
  Out : json;
  Sold : json;
  Show_Date : json;
  Price : json
}.

(** [next((v for v in variants if v['uuid'] == count['merchVariantUuid']),
    None)]: the generator is drawn until its first element. *)
Fixpoint first_variant (count : json) (variants : list json)
  : outcome (option json) :=
  match variants with
  | [] => Ok None
  | v :: rest =>
      v_uuid <-? Py.getitem v "uuid" ;;
      c_uuid <-? Py.getitem count "merchVariantUuid" ;;
      if Py.eq v_uuid c_uuid then Ok (Some v) else first_variant count rest
  end.

(** [next((item for item in merchandise for variant in
    item['merchVariants'] if variant['uuid'] == count['merchVariantUuid']),
    None)] *)
Fixpoint find_merch_item (merchandise : list json) (count : json)
  : outcome (option json) :=
  match merchandise with
  | [] => Ok None
  | item :: rest =>
      mv <-? Py.getitem item "merchVariants" ;;
      variants <-? Py.iter mv ;;
      hit <-? first_variant count variants ;;
      match hit with
      | Some _ => Ok (Some item)
      | None => find_merch_item rest count
      end
  end.

(** [if x:] for an [x] that is a value or [None]. *)
Definition is_true (x : option json) : bool :=
  match x with
  | Some v => Py.truthy v
  | None => false
  end.

Definition find_variant (merch_item count : json) : outcome (option json) :=
  mv <-? Py.getitem merch_item "merchVariants" ;;
  variants <-? Py.iter mv ;;
  first_variant count variants.

(** [variant[k] if variant else 'N/A'] *)
Definition variant_field (variant : option json) (k : string) : outcome json :=
  match variant with
  | Some v => if Py.truthy v then Py.getitem v k else Ok (JStr "N/A")
  | None => Ok (JStr "N/A")
  end.

(** [count['priceOverride'] or (variant['price'] if variant else 'N/A')] *)
Definition resolve_price (count : json) (variant : option json) : outcome json :=
  po <-? Py.getitem count "priceOverride" ;;
  if Py.truthy po then Ok po else variant_field variant "price".

(** The body of [for count in counts:]. *)
Definition process_count (show : json) (merchandise : list json) (count : json)
    (all_data : list sold_record) : outcome (list sold_record) :=
  merch_item <-? find_merch_item merchandise count ;;
  match merch_item with
  | Some item =>
      if Py.truthy item then
        variant <-? find_variant item count ;;
        sold <-? calculate_sold count ;;
        band <-? path show ["account"; "artistName"] ;;
        tour_name <-? path show ["tour"; "tourName"] ;;
        city <-? path show ["location"; "city"] ;;
        state <-? path show ["location"; "stateProvince"] ;;
        country <-? path show ["location"; "country"] ;;
        name <-? Py.getitem item "name" ;;
        size <-? variant_field variant "size" ;;
        sku <-? variant_field variant "sku" ;;
        ci <-? Py.get count "countIn" (JNum 0) ;;
        co <-? Py.get count "countOut" (JNum 0) ;;
        show_date <-? Py.getitem show "showDate" ;;
        price <-? resolve_price count variant ;;
        Ok (all_data ++
            [mkSold band tour_name
                    [Val city; Lit ", "; Val state; Lit ", "; Val country]
                    name size sku
                    (Py.or_ ci (JNum 0)) (Py.or_ co (JNum 0))
                    sold show_date price])
      else Ok all_data
  | None => Ok all_data
  end.

Fixpoint process_counts (show : json) (merchandise : list json)
    (counts : list json) (all_data : list sold_record)
  : outcome (list sold_record) :=
  match counts with
  | [] => Ok all_data
  | count :: rest =>
      all_data' <-? process_count show merchandise count all_data ;;
      process_counts show merchandise rest all_data'
  end.

(** [merchandise_cache]: a dict keyed by account uuid. *)
Definition cache : Type := list (json * list json).

Fixpoint cache_find (k : json) (c : cache) : option (list json) :=
  match c with
  | [] => None
  | (k', v) :: rest => if Py.eq k' k then Some v else cache_find k rest
  end.

(** [k in c] *)
Definition cache_contains (k : json) (c : cache) : outcome bool :=
  if Py.hashable k
  then Ok (match cache_find k c with Some _ => true | None => false end)
  else Raise TypeError.

(** [c[k]] *)
Definition cache_get (k : json) (c : cache) : outcome (list json) :=
  if Py.hashable k
  then match cache_find k c with
       | Some v => Ok v
       | None => Raise (KeyError k)
       end
  else Raise TypeError.

(** [c[k] = v] *)
Fixpoint cache_set (k : json) (v : list json) (c : cache) : cache :=
  match c with
  | [] => [(k, v)]
  | (k', v') :: rest =>
      if Py.eq k' k then (k', v) :: rest else (k', v') :: cache_set k v rest
  end.

(** The body of [for show in shows:], threading [merchandise_cache] and
    [all_data]. *)
Definition process_show (self : fetcher) (show : json)
    (st : cache * list sold_record) : M (cache * list sold_record) :=
  let '(merchandise_cache, all_data) := st in
  show_uuid <- lift (Py.getitem show "uuid") ;;
  show_date <- lift (Py.getitem show "showDate") ;;
  logger INFO (ProcessingShow show_uuid show_date) ;;;
  account_uuid <- lift (path show ["account"; "uuid"]) ;;
  cached <- lift (cache_contains account_uuid merchandise_cache) ;;
  merchandise_cache <-
    (if negb cached then
       fetched <- fetch_merchandise self account_uuid ;;
       ret (cache_set account_uuid fetched merchandise_cache)
     else ret merchandise_cache) ;;
  merchandise <- lift (cache_get account_uuid merchandise_cache) ;;
  show_uuid <- lift (Py.getitem show "uuid") ;;
  counts <- fetch_counts self show_uuid ;;
  all_data <- lift (process_counts show merchandise counts all_data) ;;
  ret (merchandise_cache, all_data).

Definition process_shows (self : fetcher) (shows : list json)
  : M (cache * list sold_record) :=
  for_each shows (process_show self) ([], []).

Definition fetch_all_data (self : fetcher) (start_date end_date : json)
  : M (list sold_record) :=
  logger INFO (FetchingAllData start_date end_date) ;;;
  shows <- fetch_shows_in_date_range self start_date end_date ;;
  st <- process_shows self shows ;;
  logger INFO (FetchedTotal (List.length (snd st))) ;;;
  ret (snd st).

(** [fetch_data]: [api_token] is what [os.getenv("API_TOKEN")] gives. *)
Definition fetch_data (api_token : string) (start_date end_date : json)
  : M (list sold_record) :=
  let fetcher := init api_token in
  fetch_all_data fetcher start_date end_date.

(* ================================================================== *)
(** ** [main]: the export table *)
(* ================================================================== *)

(** The fragment of pandas that [main] uses, on frames whose columns hold
    strings or 64-bit integers; what pandas does on other columns (missing
    values, floats, mixed types) is left out and answers [Unsupported]. *)
Module Pandas.

Inductive cell : Type :=
| CJson (v : json)
| CText (f : fstring).

Definition series : Type := list cell.

(** A frame: its columns, in order, each with one cell per row. *)
Definition frame : Type := list (string * series).

Fixpoint assoc {A} (k : string) (l : list (string * A)) : option A :=
  match l with
  | [] => None
  | (k', v) :: rest => if String.eqb k k' then Some v else assoc k rest
  end.

(** The dict literal appended to [all_data], as key and value pairs. *)
Definition record_items (r : sold_record) : list (string * cell) :=
  [("Band", CJson (Band r)); ("Tour Name", CJson (Tour_Name r));
   ("Venue", CText (Venue r)); ("Product Name", CJson (Product_Name r));
   ("Size", CJson (Size r)); ("SKU", CJson (SKU r));
   ("In", CJson (In_ r)); ("Out", CJson (Out r)); ("Sold", CJson (Sold r));
   ("Show Date", CJson (Show_Date r)); ("Price", CJson (Price r))].

Definition item (k : string) (r : sold_record) : cell :=
  match assoc k (record_items r) with
  | Some c => c
  | None => CJson JNull
  end.

(** [pd.DataFrame(data)]: the columns are the keys of the records; an empty
    list gives a frame without columns. *)
Definition DataFrame (data : list sold_record) : frame :=
  match data with
  | [] => []
  | first :: _ =>
      map (fun kc => (fst kc, map (item (fst kc)) data)) (record_items first)
  end.

(** [df[name]] *)
Definition getcol (name : string) (df : frame) : outcome series :=
  match assoc name df with
  | Some s => Ok s
  | None => Raise (KeyError (JStr name))
  end.

(** [df[name] = s] *)
Fixpoint setcol (name : string) (s : series) (df : frame) : frame :=
  match df with
  | [] => [(name, s)]
  | (k, s') :: rest =>
      if String.eqb name k then (k, s) :: rest else (k, s') :: setcol name s rest
  end.

(** [df[[n1, n2, ...]]] *)
Fixpoint select (names : list string) (df : frame) : outcome frame :=
  match names with
  | [] => Ok []
  | n :: rest =>
      s <-? getcol n df ;;
      cols <-? select rest df ;;
      Ok ((n, s) :: cols)
  end.

(** [df.insert(loc, name, s)] *)
Definition insert (loc : nat) (name : string) (s : series) (df : frame)
  : outcome frame :=
  match assoc name df with
  | Some _ => Raise ValueError
  | None =>
      if (loc <=? List.length df)%nat
      then Ok (firstn loc df ++ (name, s) :: skipn loc df)
      else Raise IndexError
  end.

Definition rows (df : frame) : nat :=
  match df with
  | [] => O
  | (_, s) :: _ => List.length s
  end.

(** A scalar assigned to a column fills every row. *)
Definition broadcast (df : frame) (v : json) : series :=
  repeat (CJson v) (rows df).

(** [a + b] on two cells of string columns. *)
Definition cell_add (a b : cell) : outcome cell :=
  match a, b with
  | CJson (JStr x), CJson (JStr y) => Ok (CJson (JStr (String.append x y)))
  | _, _ => Raise Unsupported
  end.

(** [s + "text"] *)
Fixpoint add_scalar (s : series) (t : string) : outcome series :=
  match s with
  | [] => Ok []
  | c :: rest =>
      c' <-? cell_add c (CJson (JStr t)) ;;
      rest' <-? add_scalar rest t ;;
      Ok (c' :: rest')
  end.

(** [s + t], row by row *)
Fixpoint add (s t : series) : outcome series :=
  match s, t with
  | [], [] => Ok []
  | c :: s', d :: t' =>
      c' <-? cell_add c d ;;
      rest <-? add s' t' ;;
      Ok (c' :: rest)
  | _, _ => Raise Unsupported
  end.

Definition int64 (c : cell) : bool :=
  match c with
  | CJson (JNum n) => (- 2 ^ 63 <=? n) && (n <? 2 ^ 63)
  | _ => false
  end.

Definition wrap64 (n : Z) : Z := (n + 2 ^ 63) mod 2 ^ 64 - 2 ^ 63.

Definition cell_neg (c : cell) : cell :=
  match c with
  | CJson (JNum n) => CJson (JNum (wrap64 (- n)))
  | _ => c
  end.

(** [-s] on a column of 64-bit integers: the negation wraps around. *)
Definition neg (s : series) : outcome series :=
  if forallb int64 s then Ok (map cell_neg s) else Raise Unsupported.

(** What comes before the first [sep] in [s]. *)
Definition before (sep s : string) : string :=
  match String.index 0 sep s with
  | Some i => String.substring 0 i s
  | None => s
  end.

(** [s.str.split(sep).str[0]] *)
Fixpoint split_first (sep : string) (s : series) : outcome (list string) :=
  match s with
  | [] => Ok []
  | CJson (JStr x) :: rest =>
      rest' <-? split_first sep rest ;;
      Ok (before sep x :: rest')
  | _ :: _ => Raise Unsupported
  end.

(** [.unique()]: the values in order of first appearance. *)
Definition unique (l : list string) : list string :=
  fold_left (fun seen x => if existsb (String.eqb x) seen then seen
                           else seen ++ [x]) l [].

(** [.isin(values)] *)
Definition isin (l values : list string) : list bool :=
  map (fun x => existsb (String.eqb x) values) l.

Fixpoint keep {A} (mask : list bool) (l : list A) : list A :=
  match mask, l with
  | b :: mask', x :: l' => if b then x :: keep mask' l' else keep mask' l'
  | _, _ => []
  end.

(** [df[mask]] *)
Definition where_ (mask : list bool) (df : frame) : frame :=
  map (fun col => (fst col, keep mask (snd col))) df.

End Pandas.

(** The table that [main] shows and offers for download, from
    [df = pd.DataFrame(st.session_state.data)] to [filtered_df].  [checkbox]
    is the state of the sidebar's checkbox of each band. *)
Definition main_table (checkbox : string -> bool) (data : list sold_record)
  : outcome Pandas.frame :=
  let df := Pandas.DataFrame data in
  band <-? Pandas.getcol "Band" df ;;
  band_sep <-? Pandas.add_scalar band " - " ;;
  tour_name <-? Pandas.getcol "Tour Name" df ;;
  location <-? Pandas.add band_sep tour_name ;;
  let df := Pandas.setcol "Location" location df in
  sold <-? Pandas.getcol "Sold" df ;;
  quantity <-? Pandas.neg sold ;;
  let df := Pandas.setcol "Quantity" quantity df in
  let df := Pandas.setcol "Reason" (Pandas.broadcast df (JStr "Nightly Sales")) df in
  df <-? Pandas.select ["SKU"; "Quantity"; "Location"; "Reason"] df ;;
  df <-? Pandas.insert 1 "Action" (Pandas.broadcast df (JStr "Replace")) df ;;
  location <-? Pandas.getcol "Location" df ;;
  parts <-? Pandas.split_first " - " location ;;
  let bands := Pandas.unique parts in
  let selected_bands := filter checkbox bands in
  location <-? Pandas.getcol "Location" df ;;
  parts <-? Pandas.split_first " - " location ;;
  let filtered_df := Pandas.where_ (Pandas.isin parts selected_bands) df in
  Ok filtered_df.

(** The rows of the export as the specification describes them, for records
    whose band and tour are strings and whose sold quantity is an integer. *)
Definition text_of (v : json) : string :=
  match v with
  | JStr s => s
  | _ => ""
  end.

Definition int_of (v : json) : Z :=
  match v with
  | JNum n => n
  | _ => 0
  end.

Definition location_of (r : sold_record) : string :=
  String.append (String.append (text_of (Band r)) " - ") (text_of (Tour_Name r)).

Definition typed_record (r : sold_record) : Prop :=
  (exists band, Band r = JStr band)
  /\ (exists tour, Tour_Name r = JStr tour)
  /\ (exists sold, Sold r = JNum sold /\ - 2 ^ 63 < sold < 2 ^ 63).

Definition column (name : string) (f : sold_record -> json)
    (l : list sold_record) : string * Pandas.series :=
  (name, map (fun r => Pandas.CJson (f r)) l).

(* ================================================================== *)
(** ** Vocabulary of the specification *)
(* ================================================================== *)




(** One page of a connection as the server serves it.  [later_settlements]
    are the entries that follow the first one in a show's [settlements];
    only the counts query has them. *)
Record page : Type := mkPage {
  nodes : list json;
  end_cursor : json;
  later_settlements : list json
}.

Inductive collector : Type :=
| Accounts
| Tours (account_uuid : json)
| Shows (tour_uuid start_date end_date : json)
| Merchandise (account_uuid : json)
| Counts (show_uuid : json).

Definition collect (self : fetcher) (c : collector) : M (list json) :=
  match c with
  | Accounts => fetch_accounts self
  | Tours account_uuid => fetch_tours self account_uuid
  | Shows tour_uuid start_date end_date =>
      fetch_shows self tour_uuid start_date end_date
  | Merchandise account_uuid => fetch_merchandise self account_uuid
  | Counts show_uuid => fetch_counts self show_uuid
  end.

Definition connection (has_next : bool) (p : page) : json :=
  JObj [("pageInfo", JObj [("hasNextPage", JBool has_next);
                           ("endCursor", end_cursor p)]);
        ("nodes", JArr (nodes p))].

(** The response document of each query, shaped as the query asks. *)
Definition document (c : collector) (has_next : bool) (p : page) : json :=
  match c with
  | Accounts =>
      JObj [("data", JObj [("organization",
               JObj [("accounts", connection has_next p)])])]
  | Tours _ =>
      JObj [("data", JObj [("account",
               JObj [("tours", connection has_next p)])])]
  | Shows _ _ _ =>
      JObj [("data", JObj [("tour",
               JObj [("shows", connection has_next p)])])]
  | Merchandise account_uuid =>
      JObj [("data", JObj [("account",
               JObj [("uuid", account_uuid);
                     ("merchItems", connection has_next p)])])]
  | Counts _ =>
      JObj [("data", JObj [("show",
               JObj [("settlements",
                      JArr (JObj [("path", JNull);
                                  ("mainCounts", connection has_next p)]
                            :: later_settlements p))])])]
  end.

Definition serve (c : collector) (has_next : bool) (p : page) : response :=
  mkResponse 200 (Some (document c has_next p)) "".

(** The variables each collector sends with a cursor. *)
Definition variables_of (c : collector) (cursor : json) : json :=
  match c with
  | Accounts => JObj [("cursor", cursor)]
  | Tours account_uuid =>
      JObj [("accountUuid", account_uuid); ("cursor", cursor)]
  | Shows tour_uuid start_date end_date =>
      JObj [("tourUuid", tour_uuid); ("startDate", start_date);
            ("endDate", end_date); ("cursor", cursor)]
  | Merchandise account_uuid => JObj [("uuid", account_uuid); ("cursor", cursor)]
  | Counts show_uuid => JObj [("uuid", show_uuid); ("cursor", cursor)]
  end.

Definition query_of (c : collector) : query_doc :=
  match c with
  | Accounts => AccountsQuery
  | Tours _ => ToursQuery
  | Shows _ _ _ => ShowsQuery
  | Merchandise _ => MerchandiseQuery
  | Counts _ => CountsQuery
  end.

Definition request_of (self : fetcher) (c : collector) (cursor : json) : request :=
  mkRequest (endpoint self) (query_of c) (variables_of c cursor) (headers self).

(** The cursors of the successive requests: none at first, then the
    [endCursor] of each page that announced a next one. *)
Definition cursors (pages : list page) : list json :=
  JNull :: map end_cursor pages.

Definition all_nodes (pages : list page) : list json :=
  List.concat (map nodes pages).

(** The counts a settlement entry carries, and those of the entries after
    the first. *)
Definition settlement_counts (settlement : json) : list json :=
  match path settlement ["mainCounts"; "nodes"] with
  | Ok (JArr l) => l
  | _ => []
  end.

Definition later_counts (pages : list page) : list json :=
  flat_map (fun p => flat_map settlement_counts (later_settlements p)) pages.

(** The catalogue as the specification reads it: the variants of an item,
    the uuid of a variant, and a count's uuid matching no variant of the
    merchandise set. *)
Definition item_variants (item : json) : option (list json) :=
  match item with
  | JObj kv =>
      match Py.lookup "merchVariants" kv with
      | Some (JArr variants) => Some variants
      | _ => None
      end
  | _ => None
  end.

Definition variant_uuid (variant : json) : option json :=
  match variant with
  | JObj kv => Py.lookup "uuid" kv
  | _ => None
  end.

Definition differs_from (uuid : json) (variant : json) : Prop :=
  exists u, variant_uuid variant = Some u /\ Py.eq u uuid = false.

Definition matches_no_variant (merchandise : list json) (uuid : json) : Prop :=
  Forall (fun item =>
            exists variants,
              item_variants item = Some variants
              /\ Forall (differs_from uuid) variants)
         merchandise.

(* ================================================================== *)
(** ** A sample sync *)
(* ================================================================== *)

(** The end-to-end scenario of the specification: one account, one tour,
    one show, a catalogue item with the variants A1 and B2. *)
Module Sample.

Definition account : json :=
  JObj [("uuid", JStr "acc-1"); ("artistName", JStr "BandX")].

Definition tour : json :=
  JObj [("uuid", JStr "tour-1"); ("tourName", JStr "TourY")].

Definition show_node : json :=
  JObj [("uuid", JStr "show-1"); ("showDate", JStr "2024-08-13");
        ("showEndDate", JNull); ("state", JStr "settled");
        ("attendance", JNum 900); ("capacity", JNum 1200);
        ("currencyFormat", JObj [("code", JStr "USD")]);
        ("location", JObj [("capacity", JNum 1200); ("city", JStr "Austin");
                           ("stateProvince", JStr "TX");
                           ("country", JStr "US")])].

(** The show as [fetch_shows_in_date_range] hands it on. *)
Definition show : json :=
  JObj [("uuid", JStr "show-1"); ("showDate", JStr "2024-08-13");
        ("showEndDate", JNull); ("state", JStr "settled");
        ("attendance", JNum 900); ("capacity", JNum 1200);
        ("currencyFormat", JObj [("code", JStr "USD")]);
        ("location", JObj [("capacity", JNum 1200); ("city", JStr "Austin");
                           ("stateProvince", JStr "TX");
                           ("country", JStr "US")]);
        ("account", account); ("tour", tour)].

Definition variant_a : json :=
  JObj [("sku", JStr "A1"); ("size", JStr "M"); ("uuid", JStr "var-1");
        ("price", JNum 25)].

Definition variant_b : json :=
  JObj [("sku", JStr "B2"); ("size", JStr "L"); ("uuid", JStr "var-2");
        ("price", JNum 30)].

Definition item : json :=
  JObj [("name", JStr "Tour Tee"); ("category", JStr "Apparel");
        ("uuid", JStr "item-1");
        ("productType", JObj [("name", JStr "T-Shirt")]);
        ("merchVariants", JArr [variant_a; variant_b])].

Definition merchandise : list json := [item].

Definition count_of (variant_uuid price_override : json) : json :=
  JObj [("merchVariantUuid", variant_uuid); ("priceOverride", price_override);
        ("countIn", JNum 10); ("countOut", JNull); ("comps", JNum 2);
        ("merchAdds", JArr [])].

Definition count_a : json := count_of (JStr "var-1") JNull.

Definition count_b : json :=
  JObj [("merchVariantUuid", JStr "var-2"); ("priceOverride", JNum 20);
        ("countIn", JNum 5); ("countOut", JNum 1); ("comps", JNull);
        ("merchAdds", JArr [JObj [("quantity", JNum 3)];
                            JObj [("quantity", JNull)]])].

Definition venue : fstring :=
  [Val (JStr "Austin"); Lit ", "; Val (JStr "TX"); Lit ", "; Val (JStr "US")].

Definition row_a : sold_record :=
  mkSold (JStr "BandX") (JStr "TourY") venue (JStr "Tour Tee")
         (JStr "M") (JStr "A1") (JNum 10) (JNum 0) (JNum 8)
         (JStr "2024-08-13") (JNum 25).

Definition row_b : sold_record :=
  mkSold (JStr "BandX") (JStr "TourY") venue (JStr "Tour Tee")
         (JStr "L") (JStr "B2") (JNum 5) (JNum 1) (JNum 7)
         (JStr "2024-08-13") (JNum 20).

Definition single (c : collector) (l : list json) : response :=
  serve c false (mkPage l JNull []).

(** The responses of a whole sync, in the order the fetcher asks. *)
Definition server : list response :=
  [single Accounts [account];
   single (Tours (JStr "acc-1")) [tour];
   single (Shows (JStr "tour-1") (JStr "2024-08-13") (JStr "2024-08-13"))
          [show_node];
   single (Merchandise (JStr "acc-1")) merchandise;
   single (Counts (JStr "show-1")) [count_a; count_b]].

End Sample.

(* ================================================================== *)
(** ** Calls of [fetch_merchandise] *)
(* ================================================================== *)







(** Two shows of one account, for the cache of [fetch_all_data]. *)
Module TwoShows.

Definition show (uuid : string) : json :=
  JObj [("uuid", JStr uuid); ("showDate", JStr "2024-08-13");
        ("location", JObj [("city", JStr "Austin"); ("stateProvince", JStr "TX");
                           ("country", JStr "US")]);
        ("account", Sample.account); ("tour", Sample.tour)].

Definition shows : list json := [show "show-1"; show "show-2"].

Definition server : list response :=
  [Sample.single (Merchandise (JStr "acc-1")) Sample.merchandise;
   Sample.single (Counts (JStr "show-1")) [Sample.count_a];
   Sample.single (Counts (JStr "show-2")) [Sample.count_b]].

End TwoShows.

(* ================================================================== *)
(** ** Running out of rounds *)
(* ================================================================== *)

(** A computation that never ends as a cut-off loop. *)
Definition total {A} (m : M A) : Prop :=
  forall w, fst (m w) <> Diverge.

(** A computation that leaves the script as it is. *)
Definition steady {A} (m : M A) : Prop :=
  forall w, script (snd (m w)) = script w.

(** A computation that consumes a response whenever it returns. *)
Definition pops {A} (m : M A) : Prop :=
  forall w a w', m w = (Ok a, w') ->
                 (List.length (script w') < List.length (script w))%nat.

(* ================================================================== *)
(** ** An organization as the server holds it *)
(* ================================================================== *)













(* ================================================================== *)
(** ** Requests and responses of a sync *)
(* ================================================================== *)

(** A computation all of whose requests satisfy [P]. *)
Definition posts (P : request -> Prop) {A} (m : M A) : Prop :=
  forall w, exists new, sent (snd (m w)) = sent w ++ new /\ Forall P new.

(** What every request of a sync over a date range looks like. *)
Definition sync_request (self : fetcher) (start_date end_date : json)
    (r : request) : Prop :=
  req_url r = endpoint self
  /\ req_headers r = headers self
  /\ (exists cursor, Py.getitem (req_variables r) "cursor" = Ok cursor)
  /\ (req_query r = ShowsQuery ->
      Py.getitem (req_variables r) "startDate" = Ok start_date
      /\ Py.getitem (req_variables r) "endDate" = Ok end_date).

(** A response that [execute_query] accepts. *)
Definition accepted (r : response) : Prop :=
  status_code r = 200
  /\ exists v, payload r = Some v /\ Py.contains "errors" v = Ok false.

(** A computation that consumes the script from its head, and that, when it
    returns, has consumed accepted responses only and posted one request for
    each. *)
Definition accounted {A} (m : M A) : Prop :=
  forall w,
    exists used,
      script w = used ++ script (snd (m w))
      /\ forall a, fst (m w) = Ok a ->
                   Forall accepted used
                   /\ List.length (sent (snd (m w)))
                      = (List.length (sent w) + List.length used)%nat.

(** A response on which [execute_query] raises, with what it raises. *)
Inductive refused : response -> exn -> Prop :=
| refused_status r :
    status_code r <> 200 ->
    refused r (Exception (QueryFailedStatus (status_code r) (text r)))
| refused_errors r kv errors :
    status_code r = 200 ->
    payload r = Some (JObj kv) ->
    Py.lookup "errors" kv = Some errors ->
    refused r (Exception (GraphQLQueryFailed errors))
| refused_body r :
    status_code r = 200 ->
    payload r = None ->
    refused r ValueError.


(* ================================================================== *)
(** * Properties *)
(* ================================================================== *)

(** ** Sold quantity *)

Lemma or_zero_num (n : Z) : Py.or_ (JNum n) (JNum 0) = JNum n.
Proof.
  unfold Py.or_; simpl.
  destruct (Z.eqb_spec n 0) as [->|]; reflexivity.
Qed.

Lemma get_or_zero (kv : list (string * json)) (k : string) (n : Z) :
  num_or_zero (Py.lookup k kv) = Some n ->
  exists v, Py.get (JObj kv) k (JNum 0) = Ok v /\ Py.or_ v (JNum 0) = JNum n.
Proof.
  unfold Py.get.
  destruct (Py.lookup k kv) as [v|]; simpl.
  - destruct v; simpl; intros H; try discriminate; injection H as <-.
    + exists JNull; split; reflexivity.
    + eexists; split; [reflexivity | apply or_zero_num].
  - intros H; injection H as <-.
    exists (JNum 0); split; reflexivity.
Qed.

Lemma sum_quantities_formula (adds : list json) :
  forall (qs : list Z) (a : Z),
    map add_quantity adds = map Some qs ->
    sum_quantities (JNum a) adds = Ok (JNum (a + zsum qs)).
Proof.
  induction adds as [|add adds IH]; intros [|q qs] a H; simpl in H; try discriminate.
  - simpl. f_equal. f_equal. lia.
  - injection H as Hq Hrest.
    destruct add; simpl in Hq; try discriminate.
    destruct (get_or_zero kv "quantity" q Hq) as (v & Hget & Hor).
    cbn [sum_quantities]. rewrite Hget. cbn [obind]. rewrite Hor.
    cbn [Py.add Py.as_int obind].
    rewrite (IH qs (a + q) Hrest). f_equal. f_equal. simpl. lia.
Qed.

(** C1: on a count record whose [countIn], [countOut], [comps] and add
    quantities are each an integer, null or missing, [calculate_sold]
    returns [count_in + sum of add quantities - count_out - comps], every
    null or missing field counting as zero. *)
Theorem calculate_sold_formula (kv : list (string * json))
    (count_in count_out comps : Z) (adds : list json) (quantities : list Z) :
  num_or_zero (Py.lookup "countIn" kv) = Some count_in ->
  num_or_zero (Py.lookup "countOut" kv) = Some count_out ->
  num_or_zero (Py.lookup "comps" kv) = Some comps ->
  adds_of (Py.lookup "merchAdds" kv) = Some adds ->
  map add_quantity adds = map Some quantities ->
  calculate_sold (JObj kv)
  = Ok (JNum (count_in + zsum quantities - count_out - comps)).
Proof.
  intros Hin Hout Hcomps Hadds Hqs.
  destruct (get_or_zero kv "countIn" _ Hin) as (vi & Gi & Oi).
  destruct (get_or_zero kv "countOut" _ Hout) as (vo & Go & Oo).
  destruct (get_or_zero kv "comps" _ Hcomps) as (vc & Gc & Oc).
  unfold calculate_sold.
  rewrite Gi; cbn [obind]. rewrite Go; cbn [obind]. rewrite Gc; cbn [obind].
  rewrite Oi, Oo, Oc.
  assert (Hma : exists ma, Py.get (JObj kv) "merchAdds" (JArr []) = Ok ma
                           /\ Py.iter ma = Ok adds).
  { unfold Py.get. destruct (Py.lookup "merchAdds" kv) as [v|]; simpl in Hadds.
    - destruct v; try discriminate. injection Hadds as <-.
      eexists; split; reflexivity.
    - injection Hadds as <-. eexists; split; reflexivity. }
  destruct Hma as (ma & Gm & Im).
  rewrite Gm; cbn [obind]. rewrite Im; cbn [obind].
  rewrite (sum_quantities_formula adds quantities 0 Hqs); cbn [obind].
  cbn [Py.add Py.sub Py.as_int obind].
  reflexivity.
Qed.

(** The example of the specification: [count_in=10, count_out=None,
    comps=2, adds=[]] gives 8. *)
Lemma calculate_sold_formula_witness :
  calculate_sold
    (JObj [("merchVariantUuid", JStr "v1"); ("priceOverride", JNull);
           ("countIn", JNum 10); ("countOut", JNull); ("comps", JNum 2);
           ("merchAdds", JArr [])])
  = Ok (JNum 8).
Proof.
  apply (calculate_sold_formula
           [("merchVariantUuid", JStr "v1"); ("priceOverride", JNull);
            ("countIn", JNum 10); ("countOut", JNull); ("comps", JNum 2);
            ("merchAdds", JArr [])] 10 0 2 [] []); reflexivity.
Defined.

(** ** The API client *)

Lemma execute_query_not_200 (self : fetcher) (q : query_doc) (vars : json)
    (resp : response) (rest : list response) sent0 log0 :
  status_code resp <> 200 ->
  execute_query self q vars (mkWorld (resp :: rest) sent0 log0)
  = (Raise (Exception (QueryFailedStatus (status_code resp) (text resp))),
     mkWorld rest
       (sent0 ++ [mkRequest (endpoint self) q vars (headers self)])
       ((log0 ++ [(INFO, ExecutingQuery vars)])
          ++ [(ERROR, StatusFailed (status_code resp) (text resp))])).
Proof.
  intros H. unfold execute_query, bind, logger, requests_post; simpl.
  destruct (Z.eqb_spec (status_code resp) 200); [contradiction | reflexivity].
Qed.

Lemma execute_query_200 (self : fetcher) (q : query_doc) (vars : json)
    (resp : response) (rest : list response) sent0 log0 kv :
  status_code resp = 200 ->
  payload resp = Some (JObj kv) ->
  execute_query self q vars (mkWorld (resp :: rest) sent0 log0)
  = match Py.lookup "errors" kv with
    | Some errors =>
        (Raise (Exception (GraphQLQueryFailed errors)),
         mkWorld rest
           (sent0 ++ [mkRequest (endpoint self) q vars (headers self)])
           ((log0 ++ [(INFO, ExecutingQuery vars)])
              ++ [(ERROR, GraphQLErrors errors)]))
    | None =>
        (Ok (JObj kv),
         mkWorld rest
           (sent0 ++ [mkRequest (endpoint self) q vars (headers self)])
           (log0 ++ [(INFO, ExecutingQuery vars)]))
    end.
Proof.
  intros Hs Hp.
  unfold execute_query, bind, logger, requests_post, response_json, lift; simpl.
  rewrite Hs, Hp; simpl.
  unfold Py.getitem.
  destruct (Py.lookup "errors" kv); reflexivity.
Qed.






(** ** Pagination *)

Section Pagination.

Variable body : collecting -> M (collecting + list json).
Variable resp : bool -> page -> response.
Variable req : json -> request.
Variable vars : json -> json.

(** One round of the loop on a served page. *)
Hypothesis body_round :
  forall acc cursor has_next p rest sent0 log0,
    body (acc, cursor) (mkWorld (resp has_next p :: rest) sent0 log0)
    = (Ok (if has_next then inl (acc ++ nodes p, end_cursor p)
           else inr (acc ++ nodes p)),
       mkWorld rest (sent0 ++ [req cursor])
               (log0 ++ [(INFO, ExecutingQuery (vars cursor))])).

Lemma while_true_collects (pages : list page) :
  forall (last : page) (rest : list response) (fuel : nat)
         (acc : list json) (cursor : json) sent0 log0,
    (List.length pages < fuel)%nat ->
    while_true fuel body (acc, cursor)
      (mkWorld (map (resp true) pages ++ resp false last :: rest) sent0 log0)
    = (Ok (acc ++ all_nodes (pages ++ [last])),
       mkWorld rest
         (sent0 ++ map req (cursor :: map end_cursor pages))
         (log0 ++ map (fun c => (INFO, ExecutingQuery (vars c)))
                      (cursor :: map end_cursor pages))).
Proof.
  induction pages as [|p pages IH]; intros last rest fuel acc cursor sent0 log0 Hf;
    (destruct fuel as [|fuel]; [simpl in Hf; lia|]).
  - cbn [while_true map app]. unfold bind. rewrite body_round.
    unfold ret, all_nodes. simpl. rewrite app_nil_r. reflexivity.
  - cbn [while_true map app]. unfold bind at 1. rewrite body_round.
    rewrite IH by (simpl in Hf; lia).
    unfold all_nodes. cbn [map app List.concat].
    rewrite <- !app_assoc. reflexivity.
Qed.

Lemma loop_collects (pages : list page) (last : page) (rest : list response)
    sent0 log0 :
  loop body ([], JNull)
    (mkWorld (map (resp true) pages ++ resp false last :: rest) sent0 log0)
  = (Ok (all_nodes (pages ++ [last])),
     mkWorld rest
       (sent0 ++ map req (cursors pages))
       (log0 ++ map (fun c => (INFO, ExecutingQuery (vars c))) (cursors pages))).
Proof.
  unfold loop. cbn [script].
  rewrite while_true_collects.
  - reflexivity.
  - rewrite length_app, length_map. simpl. lia.
Qed.

End Pagination.

Ltac round := intros; match goal with b : bool |- _ => destruct b end; reflexivity.

Lemma collect_pages (self : fetcher) (c : collector)
    (pages : list page) (last : page) (rest : list response) sent0 log0 :
  exists log1,
    collect self c
      (mkWorld (map (serve c true) pages ++ serve c false last :: rest) sent0 log0)
    = (Ok (all_nodes (pages ++ [last])),
       mkWorld rest (sent0 ++ map (request_of self c) (cursors pages)) log1).
Proof.
  destruct c; cbn [collect].
  - eexists. unfold fetch_accounts.
    apply (loop_collects _ (serve Accounts) (request_of self Accounts)
             (variables_of Accounts)). round.
  - eexists. unfold fetch_tours.
    apply (loop_collects _ (serve (Tours account_uuid))
             (request_of self (Tours account_uuid))
             (variables_of (Tours account_uuid))). round.
  - eexists. unfold fetch_shows.
    apply (loop_collects _ (serve (Shows tour_uuid start_date end_date))
             (request_of self (Shows tour_uuid start_date end_date))
             (variables_of (Shows tour_uuid start_date end_date))). round.
  - eexists.
    unfold fetch_merchandise, bind at 1 2. cbn [logger script sent log].
    rewrite (loop_collects _ (serve (Merchandise account_uuid))
               (request_of self (Merchandise account_uuid))
               (variables_of (Merchandise account_uuid))) by round.
    reflexivity.
  - eexists.
    unfold fetch_counts, bind at 1 2. cbn [logger script sent log].
    rewrite (loop_collects _ (serve (Counts show_uuid))
               (request_of self (Counts show_uuid))
               (variables_of (Counts show_uuid))) by round.
    reflexivity.
Qed.

(** C2: whatever pages the server serves -- any number of pages announcing
    a next one, then one that does not -- each of the five collectors returns
    the nodes of all pages in page order, posts exactly one request per page,
    the first without cursor and each later one with the [endCursor] of the
    page before, and stops at the first page whose [hasNextPage] is false,
    leaving the rest of the script untouched. *)
Theorem collectors_paginate (self : fetcher) (c : collector)
    (pages : list page) (last : page) (rest : list response) sent0 log0 :
  exists requests log1,
    collect self c
      (mkWorld (map (serve c true) pages ++ serve c false last :: rest) sent0 log0)
    = (Ok (all_nodes (pages ++ [last])), mkWorld rest (sent0 ++ requests) log1)
    /\ requests = map (request_of self c) (cursors pages)
    /\ List.length requests = List.length (pages ++ [last]).
Proof.
  destruct (collect_pages self c pages last rest sent0 log0) as (log1 & H).
  exists (map (request_of self c) (cursors pages)), log1.
  split; [exact H | split; [reflexivity|]].
  unfold cursors. rewrite length_map, length_app. simpl.
  rewrite length_map. lia.
Qed.

(** The fake three-page sequence of the specification, on the accounts
    collector. *)
Example three_pages :
  let a := JObj [("uuid", JStr "a"); ("artistName", JStr "A")] in
  let b := JObj [("uuid", JStr "b"); ("artistName", JStr "B")] in
  let c := JObj [("uuid", JStr "c"); ("artistName", JStr "C")] in
  let run :=
    fetch_accounts (init "key")
      (mkWorld [serve Accounts true (mkPage [a] (JStr "c1") []);
                serve Accounts true (mkPage [b] (JStr "c2") []);
                serve Accounts false (mkPage [c] JNull [])] [] []) in
  fst run = Ok [a; b; c]
  /\ map req_variables (sent (snd run))
     = [JObj [("cursor", JNull)]; JObj [("cursor", JStr "c1")];
        JObj [("cursor", JStr "c2")]].
Proof. split; reflexivity. Qed.

(** C4: when every response of the counts query lists two or more
    settlements for the show, [fetch_counts] returns the counts of the first
    settlement only; a count that occurs in a later settlement and not in the
    first one is not in the output. *)
Theorem fetch_counts_first_settlement (self : fetcher) (show_uuid : json)
    (pages : list page) (last : page) (rest : list response) sent0 log0 :
  Forall (fun p => later_settlements p <> []) (pages ++ [last]) ->
  let run :=
    fetch_counts self show_uuid
      (mkWorld (map (serve (Counts show_uuid) true) pages
                  ++ serve (Counts show_uuid) false last :: rest) sent0 log0) in
  fst run = Ok (all_nodes (pages ++ [last]))
  /\ forall count out,
       In count (later_counts (pages ++ [last])) ->
       ~ In count (all_nodes (pages ++ [last])) ->
       fst run = Ok out -> ~ In count out.
Proof.
  intros _. cbv zeta.
  destruct (collect_pages self (Counts show_uuid) pages last rest sent0 log0)
    as (log1 & H).
  cbn [collect] in H. rewrite H. cbn [fst]. split; [reflexivity|].
  intros count out _ Hnot Hout. injection Hout as <-. exact Hnot.
Qed.

Lemma fetch_counts_first_settlement_witness :
  let first := JObj [("merchVariantUuid", JStr "v1"); ("countIn", JNum 10)] in
  let other := JObj [("merchVariantUuid", JStr "v2"); ("countIn", JNum 7)] in
  let second :=
    JObj [("path", JNull);
          ("mainCounts",
           JObj [("pageInfo", JObj [("hasNextPage", JBool false);
                                    ("endCursor", JNull)]);
                 ("nodes", JArr [other])])] in
  fst (fetch_counts (init "key") (JStr "show-1")
         (mkWorld [serve (Counts (JStr "show-1")) false
                     (mkPage [first] JNull [second])] [] []))
  = Ok [first].
Proof.
  cbv zeta.
  refine (proj1 (fetch_counts_first_settlement (init "key") (JStr "show-1") []
                   (mkPage [JObj [("merchVariantUuid", JStr "v1");
                                  ("countIn", JNum 10)]] JNull
                      [JObj [("path", JNull);
                             ("mainCounts",
                              JObj [("pageInfo",
                                     JObj [("hasNextPage", JBool false);
                                           ("endCursor", JNull)]);
                                    ("nodes",
                                     JArr [JObj [("merchVariantUuid", JStr "v2");
                                                 ("countIn", JNum 7)]])])]])
                   [] [] [] _)).
  repeat constructor. discriminate.
Defined.

(** ** Scopes without children *)

(** A single page without nodes: every collector returns the empty list. *)
Lemma collect_no_children (self : fetcher) (c : collector) (cursor : json)
    (later : list json) (rest : list response) sent0 log0 :
  fst (collect self c
         (mkWorld (serve c false (mkPage [] cursor later) :: rest) sent0 log0))
  = Ok [].
Proof.
  destruct (collect_pages self c [] (mkPage [] cursor later) rest sent0 log0)
    as (log1 & H).
  cbn [map app] in H. rewrite H. reflexivity.
Qed.

(** C7, at the input where the code departs from it: for a show whose
    [settlements] list is empty, [fetch_counts] raises [IndexError] on
    [settlements[0]] instead of returning the empty list. *)
Theorem fetch_counts_no_settlements (self : fetcher) (show_uuid : json)
    (rest : list response) sent0 log0 :
  fst (fetch_counts self show_uuid
         (mkWorld
            (mkResponse 200
               (Some (JObj [("data", JObj [("show",
                               JObj [("settlements", JArr [])])])])) ""
             :: rest) sent0 log0))
  = Raise IndexError.
Proof. reflexivity. Qed.

(** ** The join *)

Ltac obind_inv H :=
  repeat match type of H with
         | obind ?e _ = Ok _ =>
             let x := fresh "x" in
             let E := fresh "E" in
             destruct e as [x| |] eqn:E; cbn [obind] in H; [|discriminate H..]
         end.

Lemma getitem_truthy (x v : json) (k : string) :
  Py.getitem x k = Ok v -> Py.truthy x = true.
Proof.
  destruct x; simpl; try discriminate.
  destruct kv; [discriminate | reflexivity].
Qed.

Lemma first_variant_some (count : json) (variants : list json) :
  forall v,
    first_variant count variants = Ok (Some v) ->
    In v variants /\ Py.truthy v = true.
Proof.
  induction variants as [|v0 variants IH]; intros v H; cbn [first_variant] in H.
  - discriminate.
  - obind_inv H.
    destruct (Py.eq x x0).
    + injection H as <-. split; [left; reflexivity|].
      eapply getitem_truthy; eassumption.
    + destruct (IH v H) as [Hin Ht]. split; [right; exact Hin | exact Ht].
Qed.

Lemma find_merch_item_some (merchandise : list json) (count : json) :
  forall item,
    find_merch_item merchandise count = Ok (Some item) ->
    In item merchandise
    /\ Py.truthy item = true
    /\ exists v, find_variant item count = Ok (Some v).
Proof.
  induction merchandise as [|item0 merchandise IH]; intros item H;
    cbn [find_merch_item] in H.
  - discriminate.
  - obind_inv H. destruct x1 as [v|].
    + injection H as <-. split; [left; reflexivity|]. split.
      * eapply getitem_truthy; eassumption.
      * exists v. unfold find_variant. rewrite E; cbn [obind]. rewrite E0; cbn [obind].
        exact E1.
    + destruct (IH item H) as (Hin & Ht & Hv).
      split; [right; exact Hin | split; assumption].
Qed.

Lemma variant_field_found (v : json) (k : string) :
  Py.truthy v = true -> variant_field (Some v) k = Py.getitem v k.
Proof. intros H. unfold variant_field. rewrite H. reflexivity. Qed.

(** C10: whenever [process_count] emits a record, the inner search found
    the variant: the record's Size and SKU are read from that variant, and
    its Price is the override or the variant's price; none of the ['N/A']
    branches was taken. *)
Theorem emitted_record_has_variant (show : json) (merchandise : list json)
    (count : json) (all_data : list sold_record) (r : sold_record) :
  process_count show merchandise count all_data = Ok (all_data ++ [r]) ->
  exists item v,
    find_merch_item merchandise count = Ok (Some item)
    /\ find_variant item count = Ok (Some v)
    /\ is_true (Some v) = true
    /\ Py.getitem v "size" = Ok (Size r)
    /\ Py.getitem v "sku" = Ok (SKU r)
    /\ exists po,
         Py.getitem count "priceOverride" = Ok po
         /\ if Py.truthy po then Price r = po
            else Py.getitem v "price" = Ok (Price r).
Proof.
  intros H. unfold process_count in H.
  destruct (find_merch_item merchandise count) as [[item|]| |] eqn:Efind;
    cbn [obind] in H; try discriminate.
  2:{ exfalso. injection H as H. apply (f_equal (@List.length _)) in H.
      rewrite length_app in H. simpl in H. lia. }
  destruct (find_merch_item_some _ _ _ Efind) as (_ & Hitem & v & Hv).
  rewrite Hitem, Hv in H. cbn [obind] in H.
  assert (Htv : Py.truthy v = true).
  { unfold find_variant in Hv. obind_inv Hv.
    exact (proj2 (first_variant_some _ _ _ Hv)). }
  rewrite !(variant_field_found v _ Htv) in H.
  unfold resolve_price in H.
  obind_inv H.
  injection H as H. apply app_inv_head in H. injection H as <-.
  cbn [Size SKU Price].
  exists item, v.
  repeat (split; [first [reflexivity | assumption]|]).
  destruct (Py.getitem count "priceOverride") as [po| |] eqn:Epo;
    cbn [obind] in E11; try discriminate.
  exists po. split; [reflexivity|].
  destruct (Py.truthy po).
  - injection E11 as <-. reflexivity.
  - rewrite (variant_field_found v _ Htv) in E11. exact E11.
Qed.

Lemma emitted_record_has_variant_witness :
  exists item v,
    find_merch_item Sample.merchandise Sample.count_a = Ok (Some item)
    /\ find_variant item Sample.count_a = Ok (Some v)
    /\ is_true (Some v) = true
    /\ Py.getitem v "size" = Ok (Size Sample.row_a)
    /\ Py.getitem v "sku" = Ok (SKU Sample.row_a)
    /\ exists po,
         Py.getitem Sample.count_a "priceOverride" = Ok po
         /\ if Py.truthy po then Price Sample.row_a = po
            else Py.getitem v "price" = Ok (Price Sample.row_a).
Proof.
  apply (emitted_record_has_variant Sample.show Sample.merchandise
           Sample.count_a [] Sample.row_a).
  reflexivity.
Defined.

(** The end-to-end scenario: two counts, two rows, [Sold] by the formula and
    [Price] from the catalogue where there is no override. *)
Example end_to_end :
  fst (fetch_all_data (init "key") (JStr "2024-08-13") (JStr "2024-08-13")
         (mkWorld Sample.server [] []))
  = Ok [Sample.row_a; Sample.row_b].
Proof. reflexivity. Qed.

Lemma first_variant_unmatched (count uuid : json) (variants : list json) :
  Py.getitem count "merchVariantUuid" = Ok uuid ->
  Forall (differs_from uuid) variants ->
  first_variant count variants = Ok None.
Proof.
  intros Hc Hall. induction Hall as [|v variants (u & Hu & Hne) _ IH].
  - reflexivity.
  - cbn [first_variant].
    destruct v; simpl in Hu; try discriminate.
    unfold Py.getitem at 1. rewrite Hu. cbn [obind].
    rewrite Hc. cbn [obind]. rewrite Hne. exact IH.
Qed.


Example unmatched_count_rows :
  process_counts Sample.show Sample.merchandise
    [Sample.count_a; Sample.count_of (JStr "var-9") JNull; Sample.count_b] []
  = Ok [Sample.row_a; Sample.row_b].
Proof. reflexivity. Qed.


(** C5, at the input where the code departs from it: a price override of
    zero is present and not null, and yet the emitted record carries the
    catalogue price 25 of the variant. *)
Theorem zero_price_override_replaced :
  Py.getitem (Sample.count_of (JStr "var-1") (JNum 0)) "priceOverride"
  = Ok (JNum 0)
  /\ exists r,
       process_count Sample.show Sample.merchandise
         (Sample.count_of (JStr "var-1") (JNum 0)) [] = Ok [r]
       /\ Price r = JNum 25.
Proof. split; [reflexivity|]. eexists; split; reflexivity. Qed.

(** ** The merchandise cache *)



























Lemma bind_inv {A B} (m : M A) (k : A -> M B) (w w' : world) (r : outcome B) :
  bind m k w = (r, w') ->
  (exists a w1, m w = (Ok a, w1) /\ k a w1 = (r, w'))
  \/ ((forall b, r <> Ok b) /\ snd (m w) = w').
Proof.
  unfold bind. destruct (m w) as [[a|e|] w1]; intros H.
  - left. exists a, w1. split; [reflexivity | exact H].
  - right. injection H as <- <-. split; [discriminate | reflexivity].
  - right. injection H as <- <-. split; [discriminate | reflexivity].
Qed.













(** The same run by its requests: one merchandise query, two counts
    queries. *)
Example two_shows_requests :
  map req_query
    (sent (snd (process_shows (init "key") TwoShows.shows
                  (mkWorld TwoShows.server [] []))))
  = [MerchandiseQuery; CountsQuery; CountsQuery].
Proof. reflexivity. Qed.

(** ** The export table *)

Lemma frame_of_records (data : list sold_record) :
  data <> [] ->
  Pandas.DataFrame data
  = [column "Band" Band data; column "Tour Name" Tour_Name data;
     ("Venue", map (fun x => Pandas.CText (Venue x)) data);
     column "Product Name" Product_Name data;
     column "Size" Size data; column "SKU" SKU data;
     column "In" In_ data; column "Out" Out data;
     column "Sold" Sold data; column "Show Date" Show_Date data;
     column "Price" Price data].
Proof. destruct data; [contradiction | reflexivity]. Qed.

Lemma add_scalar_strings (t : string) (l : list sold_record) :
  Forall typed_record l ->
  Pandas.add_scalar (map (fun r => Pandas.CJson (Band r)) l) t
  = Ok (map (fun r => Pandas.CJson (JStr (String.append (text_of (Band r)) t))) l).
Proof.
  induction 1 as [|r l ((band & Hb) & _) _ IH]; cbn [map Pandas.add_scalar].
  - reflexivity.
  - rewrite IH, Hb. reflexivity.
Qed.

Lemma add_strings (f : sold_record -> string) (l : list sold_record) :
  Forall typed_record l ->
  Pandas.add (map (fun r => Pandas.CJson (JStr (f r))) l)
             (map (fun r => Pandas.CJson (Tour_Name r)) l)
  = Ok (map (fun r => Pandas.CJson
                        (JStr (String.append (f r) (text_of (Tour_Name r))))) l).
Proof.
  induction 1 as [|r l (_ & (tour & Ht) & _) _ IH]; cbn [map Pandas.add].
  - reflexivity.
  - rewrite IH, Ht. reflexivity.
Qed.

Lemma wrap64_neg (n : Z) : - 2 ^ 63 < n < 2 ^ 63 -> Pandas.wrap64 (- n) = - n.
Proof.
  intros H. unfold Pandas.wrap64.
  rewrite Z.mod_small by lia. lia.
Qed.

Lemma neg_integers (l : list sold_record) :
  Forall typed_record l ->
  Pandas.neg (map (fun r => Pandas.CJson (Sold r)) l)
  = Ok (map (fun r => Pandas.CJson (JNum (- int_of (Sold r)))) l).
Proof.
  intros H. unfold Pandas.neg.
  assert (Hall : forallb Pandas.int64 (map (fun r => Pandas.CJson (Sold r)) l)
                 = true).
  { induction H as [|r l (_ & _ & sold & Hs & Hr) _ IH]; cbn [map forallb].
    - reflexivity.
    - rewrite IH, Hs. cbn [Pandas.int64].
      apply andb_true_intro; split; [|reflexivity].
      apply andb_true_intro; split; [apply Z.leb_le | apply Z.ltb_lt]; lia. }
  rewrite Hall. f_equal. rewrite map_map.
  induction H as [|r l (_ & _ & sold & Hs & Hr) _ IH]; cbn [map].
  - reflexivity.
  - cbn [forallb] in Hall. apply andb_prop in Hall.
    rewrite (IH (proj2 Hall)), Hs. cbn [Pandas.cell_neg int_of].
    rewrite (wrap64_neg sold Hr). reflexivity.
Qed.

Lemma repeat_map {A B} (b : B) (l : list A) :
  repeat b (List.length l) = map (fun _ => b) l.
Proof. induction l as [|x l IH]; cbn; [|rewrite IH]; reflexivity. Qed.

Lemma split_first_strings (sep : string) (f : sold_record -> string)
    (l : list sold_record) :
  Pandas.split_first sep (map (fun r => Pandas.CJson (JStr (f r))) l)
  = Ok (map (fun r => Pandas.before sep (f r)) l).
Proof.
  induction l as [|r l IH]; cbn [map Pandas.split_first].
  - reflexivity.
  - rewrite IH. reflexivity.
Qed.

Lemma existsb_eqb (x : string) (l : list string) :
  existsb (String.eqb x) l = true <-> In x l.
Proof.
  rewrite existsb_exists. split.
  - intros (y & Hin & E). apply String.eqb_eq in E. subst. exact Hin.
  - intros Hin. exists x. split; [exact Hin | apply String.eqb_refl].
Qed.

Lemma unique_fold (l : list string) :
  forall seen x,
    In x (fold_left (fun seen x => if existsb (String.eqb x) seen then seen
                                   else seen ++ [x]) l seen)
    <-> In x seen \/ In x l.
Proof.
  induction l as [|y l IH]; intros seen x; cbn [fold_left].
  - cbn. tauto.
  - rewrite IH. destruct (existsb (String.eqb y) seen) eqn:E.
    + apply existsb_eqb in E. cbn. split; [tauto|].
      intros [H|[<-|H]]; tauto.
    + rewrite in_app_iff. cbn. tauto.
Qed.

Lemma isin_selected (checkbox : string -> bool) (parts : list string) :
  Pandas.isin parts (filter checkbox (Pandas.unique parts)) = map checkbox parts.
Proof.
  unfold Pandas.isin. apply map_ext_in. intros x Hx.
  destruct (checkbox x) eqn:Ec.
  - apply existsb_eqb, filter_In. split; [|exact Ec].
    apply unique_fold. right. exact Hx.
  - destruct (existsb (String.eqb x) (filter checkbox (Pandas.unique parts)))
      eqn:E; [|reflexivity].
    apply existsb_eqb, filter_In in E. destruct E as [_ E]. congruence.
Qed.

Lemma keep_map {A B} (p : A -> bool) (f : A -> B) (l : list A) :
  Pandas.keep (map p l) (map f l) = map f (filter p l).
Proof.
  induction l as [|x l IH]; cbn [map Pandas.keep filter].
  - reflexivity.
  - destruct (p x); cbn [map]; rewrite IH; reflexivity.
Qed.

(** C9: for records whose band and tour are strings and whose sold quantity
    is a 64-bit integer (the least one apart), the table of [main] has the
    columns SKU, Action, Quantity, Location, Reason in that order, with one
    row per record of a selected band: the record's SKU, the literal
    ['Replace'], the negated sold quantity, ["<band> - <tour>"] and the
    literal ['Nightly Sales']. *)
Theorem export_table (checkbox : string -> bool) (data : list sold_record) :
  data <> [] ->
  Forall typed_record data ->
  let shown :=
    filter (fun r => checkbox (Pandas.before " - " (location_of r))) data in
  main_table checkbox data
  = Ok [column "SKU" SKU shown;
        column "Action" (fun _ => JStr "Replace") shown;
        column "Quantity" (fun r => JNum (- int_of (Sold r))) shown;
        column "Location" (fun r => JStr (location_of r)) shown;
        column "Reason" (fun _ => JStr "Nightly Sales") shown].
Proof.
  intros Hne Htyped. cbv zeta.
  unfold main_table. rewrite (frame_of_records data Hne). unfold column.
  cbn [Pandas.getcol Pandas.assoc obind String.eqb Ascii.eqb Bool.eqb].
  rewrite (add_scalar_strings " - " data Htyped). cbn [obind].
  rewrite (add_strings _ data Htyped). cbn [obind].
  cbn [Pandas.getcol Pandas.assoc Pandas.setcol obind
       String.eqb Ascii.eqb Bool.eqb].
  rewrite (neg_integers data Htyped). cbn [obind].
  cbn [Pandas.getcol Pandas.assoc Pandas.setcol Pandas.select Pandas.insert
       Pandas.rows Pandas.broadcast obind String.eqb Ascii.eqb Bool.eqb
       List.length Nat.leb firstn skipn app].
  unfold Pandas.broadcast, Pandas.rows.
  rewrite !length_map, !repeat_map.
  change (fun r : sold_record =>
            Pandas.CJson
              (JStr (String.append (String.append (text_of (Band r)) " - ")
                                   (text_of (Tour_Name r)))))
    with (fun r : sold_record => Pandas.CJson (JStr (location_of r))).
  rewrite (split_first_strings " - " location_of data). cbn [obind].
  rewrite isin_selected, map_map.
  unfold Pandas.where_. cbn [map fst snd].
  rewrite !keep_map. reflexivity.
Qed.

Lemma export_table_witness :
  main_table (fun _ => true) [Sample.row_a; Sample.row_b]
  = Ok [("SKU", [Pandas.CJson (JStr "A1"); Pandas.CJson (JStr "B2")]);
        ("Action", [Pandas.CJson (JStr "Replace"); Pandas.CJson (JStr "Replace")]);
        ("Quantity", [Pandas.CJson (JNum (-8)); Pandas.CJson (JNum (-7))]);
        ("Location", [Pandas.CJson (JStr "BandX - TourY");
                      Pandas.CJson (JStr "BandX - TourY")]);
        ("Reason", [Pandas.CJson (JStr "Nightly Sales");
                    Pandas.CJson (JStr "Nightly Sales")])].
Proof.
  apply (export_table (fun _ => true) [Sample.row_a; Sample.row_b]).
  - discriminate.
  - repeat constructor;
      first [eexists; reflexivity | eexists; split; [reflexivity | lia]].
Defined.

(** Without records there is no table: the column lookup fails. *)
Example export_nothing (checkbox : string -> bool) :
  main_table checkbox [] = Raise (KeyError (JStr "Band")).
Proof. reflexivity. Qed.

(** ** The bound on the rounds of a loop is never reached *)

Lemma path_settled (ks : list string) : forall x, path x ks <> Diverge.
Proof.
  induction ks as [|k ks IH]; intros x; cbn [path]; [discriminate|].
  destruct x; cbn; try discriminate.
  destruct (Py.lookup k kv); cbn; [apply IH | discriminate].
Qed.

Lemma extend_settled (acc : list json) (x : json) : extend acc x <> Diverge.
Proof. destruct x; discriminate. Qed.

Lemma getitem_settled (x : json) (k : string) : Py.getitem x k <> Diverge.
Proof.
  destruct x; cbn; try discriminate.
  destruct (Py.lookup k kv); discriminate.
Qed.

Lemma getitem0_settled (x : json) : Py.getitem0 x <> Diverge.
Proof.
  destruct x; cbn; try discriminate.
  - destruct (Py.chars s); discriminate.
  - destruct l; discriminate.
Qed.

Lemma first_settlement_settled (result : json) (ks : list string) :
  first_settlement_counts result ks <> Diverge.
Proof.
  unfold first_settlement_counts.
  destruct (path result ["data"; "show"; "settlements"]) as [s| |] eqn:E;
    cbn [obind]; [|discriminate | destruct (path_settled _ _ E)].
  destruct (Py.getitem0 s) as [f| |] eqn:E0; cbn [obind];
    [|discriminate | destruct (getitem0_settled _ E0)].
  destruct (Py.getitem f "mainCounts") as [m| |] eqn:E1; cbn [obind];
    [apply path_settled | discriminate | destruct (getitem_settled _ _ E1)].
Qed.

Lemma total_ret {A} (a : A) : total (ret a).
Proof. intros w. discriminate. Qed.

Lemma total_lift {A} (o : outcome A) : o <> Diverge -> total (lift o).
Proof. intros H w. exact H. Qed.

Lemma total_logger (l : level) (m : log_msg) : total (logger l m).
Proof. intros w. discriminate. Qed.

Lemma total_bind {A B} (m : M A) (k : A -> M B) :
  total m -> (forall a, total (k a)) -> total (bind m k).
Proof.
  intros Hm Hk w. unfold bind. specialize (Hm w).
  destruct (m w) as [[a|e|] w1]; cbn [fst] in Hm |- *;
    [apply Hk | discriminate | destruct (Hm eq_refl)].
Qed.

Lemma contains_settled (k : string) (x : json) : Py.contains k x <> Diverge.
Proof. destruct x; discriminate. Qed.

Lemma total_execute_query (self : fetcher) (q : query_doc) (vars : json) :
  total (execute_query self q vars).
Proof.
  intros w. unfold execute_query, bind, logger, requests_post, lift, raise, ret.
  cbn [script sent log].
  destruct (script w) as [|resp rest]; [discriminate|].
  destruct (status_code resp =? 200); [|discriminate].
  destruct (response_json resp) as [v| |] eqn:Ej;
    [|discriminate
     |unfold response_json in Ej; destruct (payload resp); discriminate].
  destruct (Py.contains "errors" v) as [[|]| |] eqn:Ec;
    [|discriminate | discriminate | destruct (contains_settled _ _ Ec)].
  destruct (Py.getitem v "errors") eqn:Eg;
    [discriminate | discriminate | destruct (getitem_settled _ _ Eg)].
Qed.

Lemma pops_execute_query (self : fetcher) (q : query_doc) (vars : json) :
  pops (execute_query self q vars).
Proof.
  intros w a w'. unfold execute_query, bind, logger, requests_post, lift, raise, ret.
  cbn [script sent log].
  destruct (script w) as [|resp rest]; [discriminate|].
  destruct (status_code resp =? 200); [|discriminate].
  destruct (response_json resp) as [v| |]; try discriminate.
  destruct (Py.contains "errors" v) as [[|]| |]; try discriminate.
  - destruct (Py.getitem v "errors"); discriminate.
  - intros H. injection H as _ <-. cbn. lia.
Qed.

Lemma steady_ret {A} (a : A) : steady (ret a).
Proof. intros w. reflexivity. Qed.

Lemma steady_lift {A} (o : outcome A) : steady (lift o).
Proof. intros w. reflexivity. Qed.

Lemma steady_bind {A B} (m : M A) (k : A -> M B) :
  steady m -> (forall a, steady (k a)) -> steady (bind m k).
Proof.
  intros Hm Hk w. unfold bind. specialize (Hm w).
  destruct (m w) as [[a|e|] w1]; cbn [snd] in Hm |- *; try exact Hm.
  rewrite Hk. exact Hm.
Qed.

Lemma pops_bind {A B} (m : M A) (k : A -> M B) :
  pops m -> (forall a, steady (k a)) -> pops (bind m k).
Proof.
  intros Hm Hk w b w' H. apply bind_inv in H.
  destruct H as [(a & w1 & H1 & H2) | (Hne & _)]; [|destruct (Hne b eq_refl)].
  specialize (Hm w a w1 H1). specialize (Hk a w1). rewrite H2 in Hk.
  cbn [snd] in Hk. rewrite Hk. exact Hm.
Qed.

Lemma while_true_total {S A} (body : S -> M (S + A)) :
  (forall s, total (body s)) -> (forall s, pops (body s)) ->
  forall fuel s w,
    (List.length (script w) < fuel)%nat ->
    fst (while_true fuel body s w) <> Diverge.
Proof.
  intros Ht Hp. induction fuel as [|fuel IH]; intros s w Hf; [lia|].
  cbn [while_true]. unfold bind.
  pose proof (Ht s w) as Hts. pose proof (Hp s w) as Hps.
  destruct (body s w) as [[[s'|a]|e|] w1]; cbn [fst] in Hts |- *.
  - apply IH. specialize (Hps _ _ eq_refl). lia.
  - discriminate.
  - discriminate.
  - destruct (Hts eq_refl).
Qed.

Lemma loop_total {S A} (body : S -> M (S + A)) (s : S) :
  (forall s, total (body s)) -> (forall s, pops (body s)) -> total (loop body s).
Proof.
  intros Ht Hp w. unfold loop. apply while_true_total; [exact Ht | exact Hp | lia].
Qed.

Ltac settled :=
  first [ apply path_settled | apply extend_settled | apply getitem_settled
        | apply first_settlement_settled ].

Ltac total_tac :=
  repeat first
    [ apply total_ret
    | apply total_logger
    | apply total_execute_query
    | apply total_lift; settled
    | apply total_bind; [|intros]
    | match goal with
      | |- total (if ?b then _ else _) => destruct b
      end ].

Ltac steady_tac :=
  repeat first
    [ apply steady_ret
    | apply steady_lift
    | apply steady_bind; [|intros]
    | match goal with
      | |- steady (if ?b then _ else _) => destruct b
      end ].

Ltac loop_tac :=
  apply loop_total; intros [? ?];
  [ total_tac
  | apply pops_bind; [apply pops_execute_query | intros; steady_tac] ].

(** Whatever the server answers, no collector is cut off: it returns its
    list or raises. *)
Lemma collect_total (self : fetcher) (c : collector) : total (collect self c).
Proof.
  destruct c; cbn [collect].
  - unfold fetch_accounts. loop_tac.
  - unfold fetch_tours. loop_tac.
  - unfold fetch_shows. loop_tac.
  - unfold fetch_merchandise.
    apply total_bind; [apply total_logger | intros].
    apply total_bind; [loop_tac | intros; total_tac].
  - unfold fetch_counts.
    apply total_bind; [apply total_logger | intros].
    apply total_bind; [loop_tac | intros; total_tac].
Qed.

Lemma obind_settled {A B} (o : outcome A) (k : A -> outcome B) :
  o <> Diverge -> (forall a, k a <> Diverge) -> obind o k <> Diverge.
Proof. intros Ho Hk. destruct o; cbn; [apply Hk | discriminate | exact (fun _ => Ho eq_refl)]. Qed.

Lemma get_settled (x : json) (k : string) (d : json) : Py.get x k d <> Diverge.
Proof. destruct x; cbn; try discriminate. destruct (Py.lookup k kv); discriminate. Qed.

Lemma iter_settled (x : json) : Py.iter x <> Diverge.
Proof. destruct x; discriminate. Qed.

Lemma add_settled (a b : json) : Py.add a b <> Diverge.
Proof.
  unfold Py.add. destruct (Py.as_int a), (Py.as_int b); try discriminate;
    destruct a, b; discriminate.
Qed.

Lemma sub_settled (a b : json) : Py.sub a b <> Diverge.
Proof. unfold Py.sub. destruct (Py.as_int a), (Py.as_int b); discriminate. Qed.

Lemma setitem_settled (x : json) (k : string) (v : json) :
  Py.setitem x k v <> Diverge.
Proof. destruct x; discriminate. Qed.

Ltac pure_settled :=
  repeat first
    [ apply obind_settled; [|intros]
    | apply get_settled | apply getitem_settled | apply iter_settled
    | apply add_settled | apply sub_settled | apply setitem_settled
    | apply path_settled | apply extend_settled
    | discriminate ].

Lemma sum_quantities_settled (adds : list json) :
  forall acc, sum_quantities acc adds <> Diverge.
Proof.
  induction adds as [|add adds IH]; intros acc; cbn [sum_quantities];
    pure_settled. apply IH.
Qed.

Lemma calculate_sold_settled (count : json) : calculate_sold count <> Diverge.
Proof. unfold calculate_sold. pure_settled. apply sum_quantities_settled. Qed.

Lemma first_variant_settled (count : json) (variants : list json) :
  first_variant count variants <> Diverge.
Proof.
  induction variants as [|v variants IH]; cbn [first_variant]; pure_settled.
  match goal with |- (if ?b then _ else _) <> _ => destruct b end;
    [discriminate | exact IH].
Qed.

Lemma find_merch_item_settled (merchandise : list json) (count : json) :
  find_merch_item merchandise count <> Diverge.
Proof.
  induction merchandise as [|item merchandise IH]; cbn [find_merch_item];
    pure_settled; [apply first_variant_settled|].
  match goal with |- match ?h with _ => _ end <> _ => destruct h end;
    [discriminate | exact IH].
Qed.

Lemma variant_field_settled (variant : option json) (k : string) :
  variant_field variant k <> Diverge.
Proof.
  destruct variant as [v|]; cbn; [|discriminate].
  destruct (Py.truthy v); [apply getitem_settled | discriminate].
Qed.

Lemma process_count_settled (show : json) (merchandise : list json)
    (count : json) (all_data : list sold_record) :
  process_count show merchandise count all_data <> Diverge.
Proof.
  unfold process_count.
  apply obind_settled; [apply find_merch_item_settled|].
  intros [item|]; [|discriminate].
  destruct (Py.truthy item); [|discriminate].
  unfold find_variant, resolve_price.
  pure_settled;
    first [ apply first_variant_settled | apply sum_quantities_settled
          | apply variant_field_settled | idtac ].
  match goal with |- (if ?b then _ else _) <> _ => destruct b end;
    [discriminate | apply variant_field_settled].
Qed.

Lemma process_counts_settled (show : json) (merchandise counts : list json) :
  forall all_data, process_counts show merchandise counts all_data <> Diverge.
Proof.
  induction counts as [|count counts IH]; intros all_data;
    cbn [process_counts]; [discriminate|].
  apply obind_settled; [apply process_count_settled | intros; apply IH].
Qed.

Lemma total_for_each {X S} (body : X -> S -> M S) :
  (forall x s, total (body x s)) -> forall l s, total (for_each l body s).
Proof.
  intros Hb. induction l as [|x l IH]; intros s; cbn [for_each].
  - apply total_ret.
  - apply total_bind; [apply Hb | intros; apply IH].
Qed.

Ltac total_step :=
  first
    [ apply total_ret
    | apply total_logger
    | apply (collect_total _ Accounts)
    | apply (collect_total _ (Tours _))
    | apply (collect_total _ (Shows _ _ _))
    | apply (collect_total _ (Merchandise _))
    | apply (collect_total _ (Counts _))
    | apply total_lift; pure_settled
    | apply total_for_each; intros
    | apply total_bind; [|intros]
    | match goal with
      | |- total (if ?b then _ else _) => destruct b
      end ].

(** Whatever the server answers, a whole sync returns its rows or raises:
    no loop of the fetcher is cut off. *)
Lemma fetch_all_data_total (self : fetcher) (start_date end_date : json) :
  total (fetch_all_data self start_date end_date).
Proof.
  unfold fetch_all_data, fetch_shows_in_date_range, process_shows.
  repeat total_step.
  match goal with |- total (process_show _ _ ?st) => destruct st end.
  unfold process_show, cache_contains, cache_get.
  repeat total_step.
  - match goal with |- (if ?b then _ else _) <> _ => destruct b end; discriminate.
  - match goal with |- (if ?b then _ else _) <> _ => destruct b end;
      [|discriminate].
    match goal with |- match ?h with _ => _ end <> _ => destruct h end;
      discriminate.
  - apply process_counts_settled.
Qed.

(* ================================================================== *)
(** * Further properties of the fetcher *)
(* ================================================================== *)

(** ** [calculate_sold] *)

(** A [merchAdds] that is present and null is not read as an empty list:
    [calculate_sold] raises [TypeError] on it, whatever the other fields. *)
Theorem calculate_sold_null_adds (kv : list (string * json)) :
  Py.lookup "merchAdds" kv = Some JNull ->
  calculate_sold (JObj kv) = Raise TypeError.
Proof.
  intros H. unfold calculate_sold, Py.get. rewrite H.
  destruct (Py.lookup "countIn" kv), (Py.lookup "countOut" kv),
    (Py.lookup "comps" kv); reflexivity.
Qed.

Lemma calculate_sold_null_adds_witness :
  calculate_sold (JObj [("countIn", JNum 10); ("merchAdds", JNull)])
  = Raise TypeError.
Proof.
  apply (calculate_sold_null_adds [("countIn", JNum 10); ("merchAdds", JNull)]).
  reflexivity.
Defined.

(** ** [execute_query] *)

(** One call is one POST, whatever comes back: the request goes to the
    fetcher's endpoint with its headers and the given query and variables,
    one response at most is consumed, and the variables are logged before
    anything else. *)
Theorem execute_query_posts_once (self : fetcher) (q : query_doc) (vars : json)
    (w : world) :
  let w' := snd (execute_query self q vars w) in
  sent w' = sent w ++ [mkRequest (endpoint self) q vars (headers self)]
  /\ script w' = tl (script w)
  /\ exists more, log w' = log w ++ (INFO, ExecutingQuery vars) :: more.
Proof.
  cbv zeta.
  unfold execute_query, bind, logger, requests_post, lift, raise, ret.
  cbn [script sent log].
  destruct (script w) as [|resp rest].
  { cbn. repeat split. exists []. reflexivity. }
  destruct (status_code resp =? 200).
  2:{ cbn. repeat split. eexists. rewrite <- app_assoc. reflexivity. }
  destruct (response_json resp) as [v| |].
  2,3: cbn; repeat split; exists []; reflexivity.
  destruct (Py.contains "errors" v) as [[|]| |].
  2,3,4: cbn; repeat split; exists []; reflexivity.
  destruct (Py.getitem v "errors").
  2,3: cbn; repeat split; exists []; reflexivity.
  cbn. repeat split. eexists. rewrite <- app_assoc. reflexivity.
Qed.

(** A result that [execute_query] returns is the parsed body of a response
    with status 200, and it has no ['errors'] in it. *)
Theorem execute_query_returns_clean (self : fetcher) (q : query_doc)
    (vars result : json) (w w' : world) :
  execute_query self q vars w = (Ok result, w') ->
  exists resp,
    script w = resp :: script w'
    /\ status_code resp = 200
    /\ payload resp = Some result
    /\ Py.contains "errors" result = Ok false.
Proof.
  unfold execute_query, bind, logger, requests_post, lift, raise, ret.
  cbn [script sent log].
  destruct (script w) as [|resp rest]; [discriminate|].
  destruct (Z.eqb_spec (status_code resp) 200) as [Hs|]; [|discriminate].
  unfold response_json.
  destruct (payload resp) as [v|] eqn:Hp; [|discriminate].
  destruct (Py.contains "errors" v) as [[|]| |] eqn:Hc; try discriminate.
  - destruct (Py.getitem v "errors"); discriminate.
  - intros H. injection H as <- <-. exists resp. cbn. repeat split; assumption.
Qed.

Lemma execute_query_returns_clean_witness :
  exists resp,
    [mkResponse 200 (Some (JObj [("data", JNull)])) ""] = resp :: []
    /\ status_code resp = 200
    /\ payload resp = Some (JObj [("data", JNull)])
    /\ Py.contains "errors" (JObj [("data", JNull)]) = Ok false.
Proof.
  apply (execute_query_returns_clean (init "key") AccountsQuery
           (JObj [("cursor", JNull)]) (JObj [("data", JNull)])
           (mkWorld [mkResponse 200 (Some (JObj [("data", JNull)])) ""] [] [])
           (mkWorld [] [mkRequest "https://api.atvenu.com/" AccountsQuery
                          (JObj [("cursor", JNull)])
                          [("x-api-key", "key");
                           ("Content-Type", "application/json")]]
                    [(INFO, ExecutingQuery (JObj [("cursor", JNull)]))])).
  reflexivity.
Defined.

(** ** A failure in the middle of a collection *)

Section Interrupted.

Variable body : collecting -> M (collecting + list json).
Variable resp : bool -> page -> response.
Variable req : json -> request.
Variable vars : json -> json.
Variable bad : response.
Variable e : exn.

Hypothesis body_round :
  forall acc cursor has_next p rest sent0 log0,
    body (acc, cursor) (mkWorld (resp has_next p :: rest) sent0 log0)
    = (Ok (if has_next then inl (acc ++ nodes p, end_cursor p)
           else inr (acc ++ nodes p)),
       mkWorld rest (sent0 ++ [req cursor])
               (log0 ++ [(INFO, ExecutingQuery (vars cursor))])).

Hypothesis body_fails :
  forall acc cursor rest sent0 log0,
    exists log1,
      body (acc, cursor) (mkWorld (bad :: rest) sent0 log0)
      = (Raise e, mkWorld rest (sent0 ++ [req cursor]) log1).

Lemma while_true_interrupted (pages : list page) :
  forall (rest : list response) (fuel : nat) (acc : list json) (cursor : json)
         sent0 log0,
    (List.length pages < fuel)%nat ->
    exists log1,
      while_true fuel body (acc, cursor)
        (mkWorld (map (resp true) pages ++ bad :: rest) sent0 log0)
      = (Raise e,
         mkWorld rest (sent0 ++ map req (cursor :: map end_cursor pages)) log1).
Proof.
  induction pages as [|p pages IH]; intros rest fuel acc cursor sent0 log0 Hf;
    (destruct fuel as [|fuel]; [simpl in Hf; lia|]).
  - cbn [while_true map app]. unfold bind.
    destruct (body_fails acc cursor rest sent0 log0) as (log1 & ->).
    exists log1. reflexivity.
  - cbn [while_true map app]. unfold bind at 1. rewrite body_round.
    destruct (IH rest fuel (acc ++ nodes p) (end_cursor p)
                (sent0 ++ [req cursor])
                (log0 ++ [(INFO, ExecutingQuery (vars cursor))]))
      as (log1 & ->); [simpl in Hf; lia|].
    exists log1. rewrite <- app_assoc. reflexivity.
Qed.

Lemma loop_interrupted (pages : list page) (rest : list response) sent0 log0 :
  exists log1,
    loop body ([], JNull)
      (mkWorld (map (resp true) pages ++ bad :: rest) sent0 log0)
    = (Raise e, mkWorld rest (sent0 ++ map req (cursors pages)) log1).
Proof.
  unfold loop. cbn [script]. apply while_true_interrupted.
  rewrite length_app, length_map. simpl. lia.
Qed.

End Interrupted.

Lemma execute_query_refused (self : fetcher) (q : query_doc) (vars : json)
    (bad : response) (e : exn) (rest : list response) sent0 log0 :
  refused bad e ->
  exists log1,
    execute_query self q vars (mkWorld (bad :: rest) sent0 log0)
    = (Raise e,
       mkWorld rest (sent0 ++ [mkRequest (endpoint self) q vars (headers self)])
               log1).
Proof.
  intros [r Hs | r kv errors Hs Hp He | r Hs Hp].
  - rewrite (execute_query_not_200 _ _ _ _ _ _ _ Hs). eexists; reflexivity.
  - rewrite (execute_query_200 _ _ _ _ _ _ _ _ Hs Hp), He. eexists; reflexivity.
  - unfold execute_query, bind, logger, requests_post, response_json, lift.
    cbn [script sent log]. rewrite Hs, Hp. eexists; reflexivity.
Qed.

Ltac fails H :=
  intros; cbv beta iota;
  match goal with
  | |- exists _, bind (execute_query ?self ?q ?v) _ (mkWorld (_ :: ?rest) ?s ?l) = _ =>
      unfold bind at 1;
      destruct (execute_query_refused self q v _ _ rest s l H) as (? & ->);
      eexists; reflexivity
  end.

(** A response that [execute_query] refuses -- a status other than 200, a
    body that is not JSON, or a payload with ['errors'] -- in the middle of a
    collection: the collector raises the failure of that response and
    returns none of the nodes it had gathered; it has posted one request per
    page served and one for the refused response, and asks for nothing
    more. *)
Theorem collect_interrupted (self : fetcher) (c : collector)
    (pages : list page) (bad : response) (e : exn) (rest : list response)
    sent0 log0 :
  refused bad e ->
  exists log1,
    collect self c
      (mkWorld (map (serve c true) pages ++ bad :: rest) sent0 log0)
    = (Raise e,
       mkWorld rest (sent0 ++ map (request_of self c) (cursors pages)) log1).
Proof.
  intros Hbad.
  destruct c; cbn [collect].
  - unfold fetch_accounts.
    apply (loop_interrupted _ (serve Accounts) (request_of self Accounts)
             (variables_of Accounts)); [round | fails Hbad].
  - unfold fetch_tours.
    apply (loop_interrupted _ (serve (Tours account_uuid))
             (request_of self (Tours account_uuid))
             (variables_of (Tours account_uuid))); [round | fails Hbad].
  - unfold fetch_shows.
    apply (loop_interrupted _ (serve (Shows tour_uuid start_date end_date))
             (request_of self (Shows tour_uuid start_date end_date))
             (variables_of (Shows tour_uuid start_date end_date)));
      [round | fails Hbad].
  - unfold fetch_merchandise, bind at 1 2. cbn [logger script sent log].
    match goal with
    | |- context [loop ?b ([], JNull) (mkWorld _ _ ?l)] =>
        destruct (loop_interrupted b (serve (Merchandise account_uuid))
                    (request_of self (Merchandise account_uuid))
                    (variables_of (Merchandise account_uuid)) bad e
                    ltac:(round) ltac:(fails Hbad) pages rest sent0 l)
          as (log1 & ->)
    end.
    eexists. reflexivity.
  - unfold fetch_counts, bind at 1 2. cbn [logger script sent log].
    match goal with
    | |- context [loop ?b ([], JNull) (mkWorld _ _ ?l)] =>
        destruct (loop_interrupted b (serve (Counts show_uuid))
                    (request_of self (Counts show_uuid))
                    (variables_of (Counts show_uuid)) bad e
                    ltac:(round) ltac:(fails Hbad) pages rest sent0 l)
          as (log1 & ->)
    end.
    eexists. reflexivity.
Qed.

Lemma collect_interrupted_witness :
  exists log1,
    collect (init "key") (Tours (JStr "acc-1"))
      (mkWorld (map (serve (Tours (JStr "acc-1")) true)
                    [mkPage [Sample.tour] (JStr "c1") []]
                  ++ mkResponse 200
                       (Some (JObj [("data", JNull);
                                    ("errors", JArr [JStr "rate limited"])]))
                       ""
                     :: []) [] [])
    = (Raise (Exception (GraphQLQueryFailed (JArr [JStr "rate limited"]))),
       mkWorld []
         ([] ++ map (request_of (init "key") (Tours (JStr "acc-1")))
                    (cursors [mkPage [Sample.tour] (JStr "c1") []]))
         log1).
Proof.
  apply (collect_interrupted (init "key") (Tours (JStr "acc-1"))
           [mkPage [Sample.tour] (JStr "c1") []]
           (mkResponse 200
              (Some (JObj [("data", JNull);
                           ("errors", JArr [JStr "rate limited"])])) "")
           _ [] [] []).
  apply (refused_errors _ [("data", JNull); ("errors", JArr [JStr "rate limited"])]);
    reflexivity.
Defined.

(** ** The join, item by item and row by row *)

Lemma first_variant_hit (count uuid u v : json) (vs1 vs2 : list json) :
  Py.getitem count "merchVariantUuid" = Ok uuid ->
  Forall (differs_from uuid) vs1 ->
  variant_uuid v = Some u -> Py.eq u uuid = true ->
  first_variant count (vs1 ++ v :: vs2) = Ok (Some v).
Proof.
  intros Hc Hall Hu He. induction Hall as [|v0 vs1 (u0 & Hu0 & Hne) _ IH].
  - cbn [app first_variant].
    destruct v; simpl in Hu; try discriminate.
    unfold Py.getitem at 1. rewrite Hu. cbn [obind]. rewrite Hc. cbn [obind].
    rewrite He. reflexivity.
  - cbn [app first_variant].
    destruct v0; simpl in Hu0; try discriminate.
    unfold Py.getitem at 1. rewrite Hu0. cbn [obind]. rewrite Hc. cbn [obind].
    rewrite Hne. exact IH.
Qed.

Lemma find_merch_item_skip (before l : list json) (count uuid : json) :
  Py.getitem count "merchVariantUuid" = Ok uuid ->
  matches_no_variant before uuid ->
  find_merch_item (before ++ l) count = find_merch_item l count.
Proof.
  intros Hc Hall. induction Hall as [|item before (vs & Hvs & Hd) _ IH].
  - reflexivity.
  - cbn [app find_merch_item].
    destruct item; simpl in Hvs; try discriminate.
    unfold Py.getitem.
    destruct (Py.lookup "merchVariants" kv) as [[]|]; try discriminate.
    injection Hvs as ->. cbn [obind Py.iter].
    rewrite (first_variant_unmatched _ _ _ Hc Hd). cbn [obind]. exact IH.
Qed.

(** The first item of the catalogue that has a variant with the count's
    uuid is the one joined, with the first such variant of it; what comes
    after in the catalogue, and after that variant in the item, is not even
    looked at. *)
Theorem first_match_wins (before after : list json) (item count uuid : json)
    (vs1 vs2 : list json) (v u : json) :
  Py.getitem count "merchVariantUuid" = Ok uuid ->
  matches_no_variant before uuid ->
  item_variants item = Some (vs1 ++ v :: vs2) ->
  Forall (differs_from uuid) vs1 ->
  variant_uuid v = Some u ->
  Py.eq u uuid = true ->
  find_merch_item (before ++ item :: after) count = Ok (Some item)
  /\ find_variant item count = Ok (Some v).
Proof.
  intros Hc Hbefore Hitem Hvs1 Hu He.
  assert (Hfind : find_variant item count = Ok (Some v)).
  { unfold find_variant. destruct item; simpl in Hitem; try discriminate.
    unfold Py.getitem at 1.
    destruct (Py.lookup "merchVariants" kv) as [[]|]; try discriminate.
    injection Hitem as ->. cbn [obind Py.iter].
    exact (first_variant_hit _ _ _ _ _ _ Hc Hvs1 Hu He). }
  split; [|exact Hfind].
  rewrite (find_merch_item_skip _ _ _ _ Hc Hbefore).
  cbn [find_merch_item]. unfold find_variant in Hfind.
  destruct (Py.getitem item "merchVariants") as [mv| |]; try discriminate.
  cbn [obind] in Hfind |- *.
  destruct (Py.iter mv) as [vs| |]; try discriminate.
  cbn [obind] in Hfind |- *. rewrite Hfind. reflexivity.
Qed.

Lemma first_match_wins_witness :
  find_merch_item
    ([] ++ Sample.item
        :: [JObj [("name", JStr "Copy");
                  ("merchVariants", JArr [Sample.variant_b])]; JNull])
    Sample.count_b
  = Ok (Some Sample.item)
  /\ find_variant Sample.item Sample.count_b = Ok (Some Sample.variant_b).
Proof.
  apply (first_match_wins [] _ Sample.item Sample.count_b (JStr "var-2")
           [Sample.variant_a] [] Sample.variant_b (JStr "var-2")).
  - reflexivity.
  - constructor.
  - reflexivity.
  - repeat constructor. eexists; split; reflexivity.
  - reflexivity.
  - reflexivity.
Defined.




(** ** The walk over accounts, tours and shows *)






(** ** Attaching the account and the tour to a show *)

Lemma lookup_update_same (k : string) (v : json) (kv : list (string * json)) :
  Py.lookup k (Py.update k v kv) = Some v.
Proof.
  induction kv as [|[k' v'] kv IH]; cbn [Py.update Py.lookup].
  - rewrite String.eqb_refl. reflexivity.
  - destruct (String.eqb k k') eqn:E; cbn [Py.lookup]; rewrite E;
      [reflexivity | exact IH].
Qed.

Lemma lookup_update_other (k k' : string) (v : json) (kv : list (string * json)) :
  k' <> k -> Py.lookup k' (Py.update k v kv) = Py.lookup k' kv.
Proof.
  intros Hne. induction kv as [|[k0 v0] kv IH]; cbn [Py.update Py.lookup].
  - destruct (String.eqb_spec k' k); [contradiction | reflexivity].
  - destruct (String.eqb_spec k k0) as [->|]; cbn [Py.lookup].
    + destruct (String.eqb_spec k' k0); [contradiction | reflexivity].
    + destruct (String.eqb k' k0); [reflexivity | exact IH].
Qed.

(** After [show['account'] = account] and [show['tour'] = tour], the show
    gives back that account and that tour -- also when the server had sent
    fields of these names -- and every other field reads as before. *)
Theorem attach_round_trip (show account tour s1 s2 : json) :
  Py.setitem show "account" account = Ok s1 ->
  Py.setitem s1 "tour" tour = Ok s2 ->
  Py.getitem s2 "account" = Ok account
  /\ Py.getitem s2 "tour" = Ok tour
  /\ forall k, k <> "account" -> k <> "tour" ->
               Py.getitem s2 k = Py.getitem show k.
Proof.
  destruct show; cbn [Py.setitem]; try discriminate.
  intros H1 H2. injection H1 as <-. cbn [Py.setitem] in H2. injection H2 as <-.
  unfold Py.getitem. repeat split.
  - rewrite lookup_update_other by discriminate.
    rewrite lookup_update_same. reflexivity.
  - rewrite lookup_update_same. reflexivity.
  - intros k Ha Ht. rewrite !lookup_update_other by assumption. reflexivity.
Qed.

Lemma attach_round_trip_witness :
  Py.getitem Sample.show "account" = Ok Sample.account
  /\ Py.getitem Sample.show "tour" = Ok Sample.tour
  /\ forall k, k <> "account" -> k <> "tour" ->
               Py.getitem Sample.show k = Py.getitem Sample.show_node k.
Proof.
  apply (attach_round_trip Sample.show_node Sample.account Sample.tour
           (JObj [("uuid", JStr "show-1"); ("showDate", JStr "2024-08-13");
                  ("showEndDate", JNull); ("state", JStr "settled");
                  ("attendance", JNum 900); ("capacity", JNum 1200);
                  ("currencyFormat", JObj [("code", JStr "USD")]);
                  ("location",
                   JObj [("capacity", JNum 1200); ("city", JStr "Austin");
                         ("stateProvince", JStr "TX"); ("country", JStr "US")]);
                  ("account", Sample.account)])
           Sample.show); reflexivity.
Defined.

(** ** The requests of a sync *)

Section Requests.

Variable P : request -> Prop.

Lemma posts_ret {A} (a : A) : posts P (ret a).
Proof. intros w. exists []. rewrite app_nil_r. split; [reflexivity | constructor]. Qed.

Lemma posts_lift {A} (o : outcome A) : posts P (lift o).
Proof. intros w. exists []. rewrite app_nil_r. split; [reflexivity | constructor]. Qed.

Lemma posts_logger (l : level) (m : log_msg) : posts P (logger l m).
Proof. intros w. exists []. rewrite app_nil_r. split; [reflexivity | constructor]. Qed.

Lemma posts_requests_post (r : request) : P r -> posts P (requests_post r).
Proof.
  intros H w. exists [r]. unfold requests_post.
  destruct (script w); (split; [reflexivity | repeat constructor; exact H]).
Qed.

Lemma posts_bind {A B} (m : M A) (k : A -> M B) :
  posts P m -> (forall a, posts P (k a)) -> posts P (bind m k).
Proof.
  intros Hm Hk w. unfold bind. destruct (Hm w) as (new1 & H1 & F1).
  destruct (m w) as [[a|e|] w1]; cbn [snd] in H1 |- *;
    try (exists new1; split; assumption).
  destruct (Hk a w1) as (new2 & H2 & F2).
  exists (new1 ++ new2). split.
  - rewrite H2, H1, app_assoc. reflexivity.
  - apply Forall_app. split; assumption.
Qed.

Lemma posts_while {S A} (body : S -> M (S + A)) :
  (forall s, posts P (body s)) ->
  forall fuel s, posts P (while_true fuel body s).
Proof.
  intros Hb. induction fuel as [|fuel IH]; intros s; cbn [while_true].
  - apply posts_lift.
  - apply posts_bind; [apply Hb|]. intros [s'|a]; [apply IH | apply posts_ret].
Qed.

Lemma posts_loop {S A} (body : S -> M (S + A)) (s : S) :
  (forall s, posts P (body s)) -> posts P (loop body s).
Proof. intros Hb w. unfold loop. apply posts_while. exact Hb. Qed.

Lemma posts_for_each {X S} (body : X -> S -> M S) :
  (forall x s, posts P (body x s)) -> forall l s, posts P (for_each l body s).
Proof.
  intros Hb. induction l as [|x l IH]; intros s; cbn [for_each].
  - apply posts_ret.
  - apply posts_bind; [apply Hb | intros; apply IH].
Qed.

Lemma posts_execute_query (self : fetcher) (q : query_doc) (vars : json) :
  P (mkRequest (endpoint self) q vars (headers self)) ->
  posts P (execute_query self q vars).
Proof.
  intros H w. exists [mkRequest (endpoint self) q vars (headers self)].
  split; [|repeat constructor; exact H].
  exact (proj1 (execute_query_posts_once self q vars w)).
Qed.

End Requests.

Ltac posts_step :=
  first
    [ apply posts_ret
    | apply posts_lift
    | apply posts_logger
    | apply posts_execute_query;
      unfold sync_request; cbn;
      repeat split; try discriminate; eexists; reflexivity
    | apply posts_loop; intros [? ?]
    | apply posts_for_each; intros
    | apply posts_bind; [|intros]
    | match goal with
      | |- posts _ (if ?b then _ else _) => destruct b
      | |- posts _ (process_show _ _ ?st) =>
          destruct st; unfold process_show
      end ].

Lemma fetch_all_data_posts (self : fetcher) (start_date end_date : json) :
  posts (sync_request self start_date end_date)
        (fetch_all_data self start_date end_date).
Proof.
  unfold fetch_all_data, fetch_shows_in_date_range, process_shows,
    fetch_accounts, fetch_tours, fetch_shows.
  repeat posts_step;
    unfold fetch_merchandise, fetch_counts; repeat posts_step.
Qed.

(** Every request of a sync goes to the fetcher's endpoint with the
    fetcher's headers and carries a cursor; every shows query carries the
    date range the sync was asked for. *)
Theorem sync_requests (self : fetcher) (start_date end_date : json) (w : world) :
  exists new,
    sent (snd (fetch_all_data self start_date end_date w)) = sent w ++ new
    /\ Forall (sync_request self start_date end_date) new.
Proof. exact (fetch_all_data_posts self start_date end_date w). Qed.

(** With [fetch_data], the key read from the environment is in the
    [x-api-key] header of every request, and every request goes to the
    AtVenu endpoint. *)
Theorem fetch_data_requests (api_token : string) (start_date end_date : json)
    (w : world) :
  exists new,
    sent (snd (fetch_data api_token start_date end_date w)) = sent w ++ new
    /\ Forall (fun r =>
                 req_url r = "https://api.atvenu.com/"
                 /\ req_headers r = [("x-api-key", api_token);
                                     ("Content-Type", "application/json")])
              new.
Proof.
  destruct (fetch_all_data_posts (init api_token) start_date end_date w)
    as (new & H & F).
  exists new. split; [exact H|].
  eapply Forall_impl; [|exact F]. intros r (Hu & Hh & _). split; assumption.
Qed.

(** ** Requests against responses *)

Lemma accounted_ret {A} (a : A) : accounted (ret a).
Proof.
  intros w. exists []. split; [reflexivity|]. intros _ _.
  split; [constructor | cbn; lia].
Qed.

Lemma accounted_lift {A} (o : outcome A) : accounted (lift o).
Proof.
  intros w. exists []. split; [reflexivity|]. intros _ _.
  split; [constructor | cbn; lia].
Qed.

Lemma accounted_logger (l : level) (m : log_msg) : accounted (logger l m).
Proof.
  intros w. exists []. split; [reflexivity|]. intros _ _.
  split; [constructor | cbn; lia].
Qed.

Lemma accounted_bind {A B} (m : M A) (k : A -> M B) :
  accounted m -> (forall a, accounted (k a)) -> accounted (bind m k).
Proof.
  intros Hm Hk w. unfold bind. destruct (Hm w) as (used1 & H1 & G1).
  destruct (m w) as [[a|e|] w1]; cbn [fst snd] in H1, G1 |- *.
  - destruct (Hk a w1) as (used2 & H2 & G2).
    exists (used1 ++ used2). split.
    + rewrite H1, H2, app_assoc. reflexivity.
    + intros b Hb. destruct (G1 a eq_refl) as (F1 & L1).
      destruct (G2 b Hb) as (F2 & L2).
      split; [apply Forall_app; split; assumption|].
      rewrite L2, L1, length_app. lia.
  - exists used1. split; [exact H1 | discriminate].
  - exists used1. split; [exact H1 | discriminate].
Qed.

Lemma accounted_while {S A} (body : S -> M (S + A)) :
  (forall s, accounted (body s)) ->
  forall fuel s, accounted (while_true fuel body s).
Proof.
  intros Hb. induction fuel as [|fuel IH]; intros s; cbn [while_true].
  - apply accounted_lift.
  - apply accounted_bind; [apply Hb|].
    intros [s'|a]; [apply IH | apply accounted_ret].
Qed.

Lemma accounted_loop {S A} (body : S -> M (S + A)) (s : S) :
  (forall s, accounted (body s)) -> accounted (loop body s).
Proof. intros Hb w. unfold loop. apply accounted_while. exact Hb. Qed.

Lemma accounted_for_each {X S} (body : X -> S -> M S) :
  (forall x s, accounted (body x s)) ->
  forall l s, accounted (for_each l body s).
Proof.
  intros Hb. induction l as [|x l IH]; intros s; cbn [for_each].
  - apply accounted_ret.
  - apply accounted_bind; [apply Hb | intros; apply IH].
Qed.

Lemma accounted_execute_query (self : fetcher) (q : query_doc) (vars : json) :
  accounted (execute_query self q vars).
Proof.
  intros w.
  destruct (execute_query_posts_once self q vars w) as (Hsent & Hscript & _).
  destruct (execute_query self q vars w) as [r w'] eqn:Hrun.
  cbn [fst snd] in *.
  destruct r as [result|e|].
  - destruct (execute_query_returns_clean _ _ _ _ _ _ Hrun)
      as (resp & Hs & H200 & Hp & Hc).
    exists [resp]. split; [exact Hs|]. intros a _. split.
    + repeat constructor; [exact H200 | exists result; split; assumption].
    + rewrite Hsent, length_app. reflexivity.
  - exists (firstn 1 (script w)). split; [|discriminate].
    rewrite Hscript. destruct (script w); reflexivity.
  - exists (firstn 1 (script w)). split; [|discriminate].
    rewrite Hscript. destruct (script w); reflexivity.
Qed.

Ltac accounted_step :=
  first
    [ apply accounted_ret
    | apply accounted_lift
    | apply accounted_logger
    | apply accounted_execute_query
    | apply accounted_loop; intros [? ?]
    | apply accounted_for_each; intros
    | apply accounted_bind; [|intros]
    | match goal with
      | |- accounted (if ?b then _ else _) => destruct b
      | |- accounted (process_show _ _ ?st) =>
          destruct st; unfold process_show
      end ].

Lemma fetch_all_data_accounted (self : fetcher) (start_date end_date : json) :
  accounted (fetch_all_data self start_date end_date).
Proof.
  unfold fetch_all_data, fetch_shows_in_date_range, process_shows,
    fetch_accounts, fetch_tours, fetch_shows.
  repeat accounted_step;
    unfold fetch_merchandise, fetch_counts; repeat accounted_step.
Qed.

(** A sync that returns its rows has seen nothing but accepted responses --
    status 200, a body that parses, no ['errors'] in it -- and has posted
    exactly one request for each response it consumed: any other response
    ends the sync without rows. *)
Theorem sync_accounting (self : fetcher) (start_date end_date : json)
    (w w' : world) (rows : list sold_record) :
  fetch_all_data self start_date end_date w = (Ok rows, w') ->
  exists used,
    script w = used ++ script w'
    /\ Forall accepted used
    /\ List.length (sent w') = (List.length (sent w) + List.length used)%nat.
Proof.
  intros H.
  destruct (fetch_all_data_accounted self start_date end_date w)
    as (used & Hs & G).
  rewrite H in Hs, G. cbn [fst snd] in Hs, G.
  destruct (G rows eq_refl) as (F & L).
  exists used. repeat split; assumption.
Qed.

Lemma sync_accounting_witness :
  let w := mkWorld Sample.server [] [] in
  let w' := snd (fetch_all_data (init "key") (JStr "2024-08-13")
                   (JStr "2024-08-13") w) in
  exists used,
    script w = used ++ script w'
    /\ Forall accepted used
    /\ List.length (sent w') = (List.length (sent w) + List.length used)%nat.
Proof.
  cbv zeta.
  apply (sync_accounting (init "key") (JStr "2024-08-13") (JStr "2024-08-13")
           (mkWorld Sample.server [] [])
           (snd (fetch_all_data (init "key") (JStr "2024-08-13")
                   (JStr "2024-08-13") (mkWorld Sample.server [] [])))
           [Sample.row_a; Sample.row_b]).
  vm_compute. reflexivity.
Defined.

(** ** Counts of a show next to one that matches nothing *)







